(** * Terminal clipboard contribution and terminal find widget

    A shallow embedding of
    [terminalContrib/clipboard/browser/terminal.clipboard.contribution.ts]
    (class [TerminalClipboardContribution] and the paste actions) and of
    [terminalContrib/find/browser/terminalFindWidget.ts]
    (class [TerminalFindWidget]).

    - Both classes run on one event loop.  A method is embedded as an
      action on the world that runs to its end: an [await] on a
      collaborator is answered at once with the answer the environment
      [Env] holds for it, and the continuation of a promise follows the
      method that made it.
    - An action ends normally or with a thrown error, and lists the calls
      it made to collaborators (the trace).
    - The calls to [notify] only write to the log service and are left
      out; each assignment to [_overrideCopySelection], which the code
      logs where it makes it, is kept as an event of the trace, and so is
      each assignment to [_previousSelection] and to
      [_previousSelectionPosition], so that the trace tells what was
      written before and after a call to a collaborator.
    - The actions that copy the last command or its output only hand a
      text to the clipboard service and are left out. *)

From Stdlib Require Import NArith Ascii String List Bool Lia.
From stdpp Require Import base decidable option list strings pretty.
Import ListNotations.

Local Open Scope string_scope.
Local Open Scope list_scope.

(** ** Data *)

(** [IBufferCellPosition] and [IBufferRange] of xterm: 1-based column
    and row numbers. *)
Record IBufferCellPosition : Type := mkCell { cell_x : N; cell_y : N }.
Record IBufferRange : Type :=
  mkRange { range_start : IBufferCellPosition; range_end : IBufferCellPosition }.

#[global] Instance IBufferCellPosition_eq_dec : EqDecision IBufferCellPosition.
Proof. solve_decision. Defined.
#[global] Instance IBufferRange_eq_dec : EqDecision IBufferRange.
Proof. solve_decision. Defined.

(** The argument of [IClipboardService.readText]: none, or ['selection']. *)
Inductive ClipboardType : Type := DefaultClipboard | SelectionClipboard.

#[global] Instance ClipboardType_eq_dec : EqDecision ClipboardType.
Proof. solve_decision. Defined.

(** What [shouldPasteTerminalText] resolves to:
    [boolean | { modifiedText: string }]. *)
Inductive ShouldPaste : Type :=
| PasteBool (b : bool)
| PasteObject (modifiedText : string).

(** JavaScript truthiness of that value, as tested by [!shouldPasteText]. *)
Definition truthy (r : ShouldPaste) : bool :=
  match r with
  | PasteBool b => b
  | PasteObject _ => true
  end.

(** Options handed to the search addon. *)
Record ISearchOptions : Type := mkSearchOptions {
  opt_regex : bool;
  opt_wholeWord : bool;
  opt_caseSensitive : bool;
  opt_incremental : option bool
}.

(** The two fields of a DOM [MouseEvent] that [handleMouseEvent] reads. *)
Record MouseEvent : Type := mkMouseEvent { button : N; shiftKey : bool }.

(** A disposable made by [toDisposable] is identified by its position in
    the store of disposables of the world. *)
Abbreviation IDisposable := nat (only parsing).

(** The observable calls to collaborators, in the order they are made. *)
Inductive Effect : Type :=
| EAssignOverride (v : option bool)      (* this._overrideCopySelection = v *)
| EAssignPreviousSelection (text : string)
                                         (* this._previousSelection = text *)
| EAssignPreviousSelectionPosition (position : option IBufferRange)
                                         (* this._previousSelectionPosition = position *)
| EReadText (c : ClipboardType)          (* _clipboardService.readText(c) *)
| EShouldPaste (text : string) (bracketed : bool)
| EInstanceFocus (force : bool)          (* instance.focus(force) *)
| EWillPaste (text : string)             (* _onWillPaste.fire(text) *)
| ERawPaste (text : string)              (* _xterm.raw.paste(text) *)
| EDidPaste (text : string)              (* _onDidPaste.fire(text) *)
| EXtermCopySelection (asHtml : option bool) (command : option string)
| EListenerError (e : string)            (* an error kept by the emitter *)
| EUnhandledRejection (e : string)       (* an error left in a dropped promise *)
| ENotificationInfo                      (* _notificationService.info(...) *)
| EClearSelectionLater                   (* setTimeout(clearSelection, 0) *)
| EFindPrevious (term : string) (o : ISearchOptions)
| EFindNext (term : string) (o : ISearchOptions)
| EUpdateButtons (foundMatch : bool)
| EClearActiveSearchDecoration
| EClearSearchDecorations
| EClearSelection
| ESuperShow (initialInput : option string)   (* super.show(initialInput) *)
| ESuperReveal (initialInput : string)        (* super.reveal(inputValue) *)
| ESuperHide.

(** ** JSON.stringify on selection positions

    The selection handler compares [JSON.stringify] of two
    [IBufferRange | undefined] values.  [JSON.stringify(undefined)] is
    [undefined]; a range prints as
    [{"start":{"x":1,"y":2},"end":{"x":3,"y":4}}]. *)

Definition dquote : string := String (ascii_of_nat 34) EmptyString.

Definition json_key (k : string) : string := dquote +:+ k +:+ dquote +:+ ":".

Definition JSON_stringify_cell (p : IBufferCellPosition) : string :=
  "{" +:+ json_key "x" +:+ pretty (cell_x p) +:+ ","
      +:+ json_key "y" +:+ pretty (cell_y p) +:+ "}".

Definition JSON_stringify_range (r : IBufferRange) : string :=
  "{" +:+ json_key "start" +:+ JSON_stringify_cell (range_start r) +:+ ","
      +:+ json_key "end" +:+ JSON_stringify_cell (range_end r) +:+ "}".

Definition JSON_stringify (r : option IBufferRange) : option string :=
  match r with
  | Some r => Some (JSON_stringify_range r)
  | None => None
  end.

(** ** The two objects and the world *)

Record TerminalClipboardContribution : Type := mkClipboard {
  (** whether [_xterm] holds the terminal ([undefined] before [xtermReady]) *)
  _xterm : bool;
  _overrideCopySelection : option bool;
  _previousSelection : option string;
  _previousSelectionPosition : option IBufferRange
}.

Record TerminalFindWidget : Type := mkFindWidget {
  _overrideCopyOnSelectionDisposable : option IDisposable;
  _findInputFocused : bool;
  _findWidgetFocused : bool;
  _findWidgetVisible : bool;
  (** whether the constructor subscribed to [onWillPaste] *)
  willPasteSubscribed : bool;
  (** the one-shot listeners on [xterm.onDidChangeSelection] registered
      after a search and not yet fired *)
  onceSelectionListeners : nat
}.

Record World : Type := mkWorld {
  clipboard : TerminalClipboardContribution;
  (** [None] while no find widget has been constructed *)
  findWidget : option TerminalFindWidget;
  (** one flag per disposable made so far: has it been disposed? *)
  disposables : list bool
}.

(** The answers of the collaborators at the time of a call. *)
Record Env : Type := mkEnv {
  (** [_configurationService.getValue(TerminalSettingId.CopyOnSelection)] *)
  copyOnSelection : bool;
  (** [xterm.raw.getSelection()] *)
  getSelection : string;
  (** [xterm.raw.getSelectionPosition()] *)
  getSelectionPosition : option IBufferRange;
  (** [instance.hasSelection()] *)
  hasSelection : bool;
  (** [_clipboardService.readText(type)] *)
  readText : ClipboardType -> string;
  (** [_xterm.raw.modes.bracketedPasteMode] *)
  bracketedPasteMode : bool;
  (** the paste guard of [./terminalClipboard.js] *)
  shouldPasteTerminalText : string -> bool -> ShouldPaste;
  (** whether [instance.getContribution(ID)] yields the contribution
      ([null] otherwise) *)
  getContribution : bool;
  (** whether [instance.xterm] is defined *)
  instance_xterm : bool;
  (** whether an error thrown by a listener reaches the code that fired
      the event ([Emitter] is not part of these sources) *)
  listenerErrorPropagates : bool;
  (** the find input and its toggles, kept by [SimpleFindWidget] *)
  inputValue : string;
  regexValue : bool;
  wholeWordValue : bool;
  caseSensitiveValue : bool;
  isVisible : bool;
  (** what the search addon resolves [findNext]/[findPrevious] to *)
  foundMatch : bool;
  (** [_terminalConfigurationService.config.middleClickBehavior] and
      [.rightClickBehavior] *)
  middleClickBehavior : string;
  rightClickBehavior : string;
  (** [BrowserFeatures.clipboard.readText] *)
  clipboardReadText : bool;
  isMacintosh : bool
}.

Definition initialClipboard : TerminalClipboardContribution :=
  mkClipboard false None None None.

Definition initialWorld : World := mkWorld initialClipboard None [].

(** Field updates. *)
Definition set_xterm (b : bool) (c : TerminalClipboardContribution) :=
  mkClipboard b (_overrideCopySelection c) (_previousSelection c)
    (_previousSelectionPosition c).
Definition set_overrideCopySelection (v : option bool)
    (c : TerminalClipboardContribution) :=
  mkClipboard (_xterm c) v (_previousSelection c) (_previousSelectionPosition c).
Definition set_previousSelection (s : option string)
    (c : TerminalClipboardContribution) :=
  mkClipboard (_xterm c) (_overrideCopySelection c) s
    (_previousSelectionPosition c).
Definition set_previousSelectionPosition (p : option IBufferRange)
    (c : TerminalClipboardContribution) :=
  mkClipboard (_xterm c) (_overrideCopySelection c) (_previousSelection c) p.

Definition set_disposable (d : option IDisposable) (f : TerminalFindWidget) :=
  mkFindWidget d (_findInputFocused f) (_findWidgetFocused f)
    (_findWidgetVisible f) (willPasteSubscribed f) (onceSelectionListeners f).
Definition set_findInputFocused (b : bool) (f : TerminalFindWidget) :=
  mkFindWidget (_overrideCopyOnSelectionDisposable f) b (_findWidgetFocused f)
    (_findWidgetVisible f) (willPasteSubscribed f) (onceSelectionListeners f).
Definition set_findWidgetFocused (b : bool) (f : TerminalFindWidget) :=
  mkFindWidget (_overrideCopyOnSelectionDisposable f) (_findInputFocused f) b
    (_findWidgetVisible f) (willPasteSubscribed f) (onceSelectionListeners f).
Definition set_findWidgetVisible (b : bool) (f : TerminalFindWidget) :=
  mkFindWidget (_overrideCopyOnSelectionDisposable f) (_findInputFocused f)
    (_findWidgetFocused f) b (willPasteSubscribed f) (onceSelectionListeners f).
Definition set_onceSelectionListeners (n : nat) (f : TerminalFindWidget) :=
  mkFindWidget (_overrideCopyOnSelectionDisposable f) (_findInputFocused f)
    (_findWidgetFocused f) (_findWidgetVisible f) (willPasteSubscribed f) n.

(** ** Actions: state, trace and exceptions *)

Inductive Completion (A : Type) : Type :=
| Normal (a : A) (w : World) (tr : list Effect)
| Thrown (e : string) (w : World) (tr : list Effect).
Arguments Normal {A} a w tr.
Arguments Thrown {A} e w tr.

Definition M (A : Type) : Type := World -> Completion A.

Definition world_of {A} (c : Completion A) : World :=
  match c with Normal _ w _ | Thrown _ w _ => w end.
Definition trace_of {A} (c : Completion A) : list Effect :=
  match c with Normal _ _ tr | Thrown _ _ tr => tr end.
Definition error_of {A} (c : Completion A) : option string :=
  match c with Normal _ _ _ => None | Thrown e _ _ => Some e end.

Definition ret {A} (a : A) : M A := fun w => Normal a w [].

Definition bind {A B} (m : M A) (k : A -> M B) : M B := fun w =>
  match m w with
  | Normal a w1 tr1 =>
      match k a w1 with
      | Normal b w2 tr2 => Normal b w2 (tr1 ++ tr2)
      | Thrown e w2 tr2 => Thrown e w2 (tr1 ++ tr2)
      end
  | Thrown e w1 tr1 => Thrown e w1 tr1
  end.

Notation "'let*' x ':=' m 'in' k" := (bind m (fun x => k))
  (at level 10, x name, m at level 100, k at level 200).
Notation "m ;; k" := (bind m (fun _ => k))
  (at level 100, k at level 200, right associativity).

Definition throw {A} (e : string) : M A := fun w => Thrown e w [].
Definition emit (e : Effect) : M unit := fun w => Normal tt w [e].
Definition this {A} (f : TerminalClipboardContribution -> A) : M A :=
  fun w => Normal (f (clipboard w)) w [].
Definition update (f : TerminalClipboardContribution -> TerminalClipboardContribution)
  : M unit :=
  fun w => Normal tt (mkWorld (f (clipboard w)) (findWidget w) (disposables w)) [].
Definition when (b : bool) (m : M unit) : M unit := if b then m else ret tt.
Definition updateWidget (f : TerminalFindWidget -> TerminalFindWidget) : M unit :=
  fun w => Normal tt (mkWorld (clipboard w) (f <$> findWidget w) (disposables w)) [].
Definition thisWidget {A} (f : TerminalFindWidget -> option A) : M (option A) :=
  fun w => Normal (findWidget w ≫= f) w [].

(** ** The override of copy on selection *)

(** Modelled from the spec: [toDisposable] of [base/common/lifecycle.js]
    is not among the sources.  The handle it makes resets the override
    "exactly once, idempotently, regardless of how many times it is
    invoked": a fresh disposable is not yet disposed, and its callback
    runs at the first [dispose] only.  The one callback these sources
    hand to [toDisposable] is [clearOverride] below. *)
Definition toDisposable : M IDisposable := fun w =>
  Normal (length (disposables w))
    (mkWorld (clipboard w) (findWidget w) (disposables w ++ [false])) [].

(** The callback of [overrideCopyOnSelection]:
    [this._overrideCopySelection = undefined]. *)
Definition clearOverride : M unit :=
  update (set_overrideCopySelection None);;
  emit (EAssignOverride None).

Definition markDisposed (d : IDisposable) : M unit := fun w =>
  Normal tt (mkWorld (clipboard w) (findWidget w) (<[d := true]> (disposables w))) [].

Definition dispose (d : IDisposable) : M unit := fun w =>
  match disposables w !! d with
  | Some false => (markDisposed d;; clearOverride) w
  | _ => Normal tt w []
  end.

Definition multipleOverrideError : string :=
  "Cannot set a copy on selection override multiple times".

Definition overrideCopyOnSelection (value : bool) : M IDisposable :=
  let* held := this _overrideCopySelection in
  match held with
  | Some _ => throw multipleOverrideError
  | None =>
      update (set_overrideCopySelection (Some value));;
      emit (EAssignOverride (Some value));;
      toDisposable
  end.

(** [TerminalClipboardContribution.get(instance)?.overrideCopyOnSelection(value)] *)
Definition get_overrideCopyOnSelection (env : Env) (value : bool)
  : M (option IDisposable) :=
  if getContribution env
  then let* d := overrideCopyOnSelection value in ret (Some d)
  else ret None.

(** ** Events of the contribution *)

(** The listener the find widget's constructor puts on [onWillPaste]. *)
Definition onWillPaste_listener (env : Env) : M unit :=
  let* d := get_overrideCopyOnSelection env false in
  updateWidget (set_disposable d).

(** Delivery of an event to a listener by [Emitter.fire]. *)
Definition deliver (env : Env) (listener : M unit) : M unit := fun w =>
  match listener w with
  | Normal a w1 tr => Normal a w1 tr
  | Thrown e w1 tr =>
      if listenerErrorPropagates env then Thrown e w1 tr
      else Normal tt w1 (tr ++ [EListenerError e])
  end.

Definition willPasteListeners : M bool := fun w =>
  Normal (from_option willPasteSubscribed false (findWidget w)) w [].

Definition fire_onWillPaste (env : Env) (text : string) : M unit :=
  emit (EWillPaste text);;
  let* subscribed := willPasteListeners in
  when subscribed (deliver env (onWillPaste_listener env)).

Definition fire_onDidPaste (text : string) : M unit := emit (EDidPaste text).

(** ** TerminalClipboardContribution *)

(** [xtermReady] keeps the terminal in [_xterm] and registers the
    listeners below on it; the terminal instance calls it once. *)
Definition xtermReady : M unit := update (set_xterm true).

Definition copySelection (asHtml : option bool) (command : option string)
  : M unit :=
  let* x := this _xterm in
  when x (emit (EXtermCopySelection asHtml command)).

(** The listener [xtermReady] puts on [xterm.onDidRequestCopyAsHtml]. *)
Definition onDidRequestCopyAsHtml_listener (command : option string) : M unit :=
  copySelection (Some true) command.

(** The listener [xtermReady] puts on [xterm.onDidChangeSelection]. *)
Definition onDidChangeSelection_listener (env : Env) : M unit :=
  when (copyOnSelection env) (
    let* override := this _overrideCopySelection in
    if bool_decide (override = Some false) then ret tt
    else
      let* previousSelection := this _previousSelection in
      let* previousSelectionPosition := this _previousSelectionPosition in
      if bool_decide (Some (getSelection env) = previousSelection)
         && bool_decide (JSON_stringify (getSelectionPosition env)
                         = JSON_stringify previousSelectionPosition)
      then ret tt
      else
        when (hasSelection env) (
          update (set_previousSelection (Some (getSelection env)));;
          emit (EAssignPreviousSelection (getSelection env));;
          update (set_previousSelectionPosition (getSelectionPosition env));;
          emit (EAssignPreviousSelectionPosition (getSelectionPosition env));;
          copySelection None None)).

Definition _paste (env : Env) (value : string) : M unit :=
  let* x := this _xterm in
  if negb x then ret tt
  else
    emit (EShouldPaste value (bracketedPasteMode env));;
    let shouldPasteText := shouldPasteTerminalText env value (bracketedPasteMode env) in
    if negb (truthy shouldPasteText) then ret tt
    else
      let currentText :=
        match shouldPasteText with
        | PasteObject modifiedText => modifiedText
        | PasteBool _ => value
        end in
      emit (EInstanceFocus false);;
      fire_onWillPaste env currentText;;
      emit (ERawPaste currentText);;
      fire_onDidPaste currentText.

Definition paste (env : Env) : M unit :=
  emit (EReadText DefaultClipboard);;
  _paste env (readText env DefaultClipboard).

Definition pasteSelection (env : Env) : M unit :=
  overrideCopyOnSelection false;;
  emit (EReadText SelectionClipboard);;
  _paste env (readText env SelectionClipboard).

(** A call whose promise is dropped ([this.paste()] without [await]):
    an error stays in the promise and does not reach the caller.  The
    call is run to its end here, before the caller goes on; in the source
    the caller goes on once the dropped call first waits. *)
Definition detached (m : M unit) : M unit := fun w =>
  match m w with
  | Normal _ w1 tr => Normal tt w1 tr
  | Thrown e w1 tr => Normal tt w1 (tr ++ [EUnhandledRejection e])
  end.

(** The result is [Some true] for [{ handled: true }], [None] for none. *)
Definition handleMouseEvent (env : Env) (event : MouseEvent) : M (option bool) :=
  if (button event =? 1)%N then
    if String.eqb (middleClickBehavior env) "paste"
    then detached (paste env);; ret (Some true)
    else ret None
  else if (button event =? 2)%N then
    if shiftKey event then ret None
    else
      let rightClickBehavior := rightClickBehavior env in
      if negb (String.eqb rightClickBehavior "copyPaste")
         && negb (String.eqb rightClickBehavior "paste")
      then ret None
      else
        (if String.eqb rightClickBehavior "copyPaste" && hasSelection env
         then copySelection None None;; emit EClearSelection
         else if clipboardReadText env
              then detached (paste env)
              else emit ENotificationInfo);;
        when (isMacintosh env) (emit EClearSelectionLater);;
        ret (Some true)
  else ret None.

(** The actions [workbench.action.terminal.paste] and
    [workbench.action.terminal.pasteSelection]:
    [TerminalClipboardContribution.get(activeInstance)?.paste()]. *)
Definition action_paste (env : Env) : M unit :=
  when (getContribution env) (paste env).

Definition action_pasteSelection (env : Env) : M unit :=
  when (getContribution env) (pasteSelection env).

(** ** TerminalFindWidget *)

(** The constructor: the three context keys start unset, no disposable is
    held, and [onWillPaste] is subscribed to when the instance has the
    clipboard contribution.  One widget per instance is modelled. *)
Definition newTerminalFindWidget (env : Env) : M unit := fun w =>
  match findWidget w with
  | Some _ => Normal tt w []
  | None =>
      Normal tt
        (mkWorld (clipboard w)
           (Some (mkFindWidget None false false false (getContribution env) 0))
           (disposables w)) []
  end.

Definition searchOptions (env : Env) (incremental : option bool) : ISearchOptions :=
  mkSearchOptions (regexValue env) (wholeWordValue env) (caseSensitiveValue env)
    incremental.

(** [this._register(Event.once(xterm.onDidChangeSelection)(...))].  The
    source registers this listener when the promise of the search
    resolves; here it is counted when the call that searched ends, so a
    selection change that the search itself causes before it resolves is
    not told apart from a later one. *)
Definition registerOnceSelectionListener : M unit :=
  updateWidget (fun f => set_onceSelectionListeners (S (onceSelectionListeners f)) f).

Definition _findNextWithEvent (env : Env) (term : string) (o : ISearchOptions)
  : M bool :=
  emit (EFindNext term o);;
  registerOnceSelectionListener;;
  ret (foundMatch env).

Definition _findPreviousWithEvent (env : Env) (term : string) (o : ISearchOptions)
  : M bool :=
  emit (EFindPrevious term o);;
  registerOnceSelectionListener;;
  ret (foundMatch env).

Definition find (env : Env) (previous : bool) (update : option bool) : M unit :=
  when (instance_xterm env) (
    if previous
    then _findPreviousWithEvent env (inputValue env) (searchOptions env update);;
         ret tt
    else _findNextWithEvent env (inputValue env) (searchOptions env None);;
         ret tt).

(** [s.includes('\n')] *)
Fixpoint includes_newline (s : string) : bool :=
  match s with
  | EmptyString => false
  | String c s => Ascii.eqb c (ascii_of_nat 10) || includes_newline s
  end.

(** [instance.selection]: the selected text when [hasSelection()] holds,
    [undefined] otherwise. *)
Definition instance_selection (env : Env) : option string :=
  if hasSelection env then Some (getSelection env) else None.

(** The seed of the find input in [show] and [reveal]: the selection,
    when there is one and it has no line break. *)
Definition initialInput (env : Env) : option string :=
  match instance_selection env with
  | Some selection =>
      if hasSelection env && negb (includes_newline selection)
      then Some selection
      else None
  | None => None
  end.

Definition show (env : Env) : M unit :=
  emit (ESuperShow (initialInput env));;
  updateWidget (set_findWidgetVisible true).

(** In [reveal] the search is issued first; what follows its answer (the
    buttons, the one-shot listeners) comes after the rest of the method. *)
Definition reveal (env : Env) : M unit :=
  let inputValue := default (inputValue env) (initialInput env) in
  let searching := instance_xterm env && negb (String.eqb inputValue EmptyString) in
  when searching (emit (EFindPrevious inputValue (searchOptions env (Some true))));;
  emit (EUpdateButtons false);;
  emit (ESuperReveal inputValue);;
  updateWidget (set_findWidgetVisible true);;
  when searching (
    registerOnceSelectionListener;;
    emit (EUpdateButtons (foundMatch env));;
    registerOnceSelectionListener).

Definition hide (env : Env) : M unit :=
  emit ESuperHide;;
  updateWidget (set_findWidgetVisible false);;
  emit (EInstanceFocus true);;
  when (instance_xterm env) (emit EClearSearchDecorations).

Definition _onInputChanged (env : Env) : M bool :=
  when (instance_xterm env) (
    (let* d := thisWidget _overrideCopyOnSelectionDisposable in
     match d with
     | Some d => dispose d
     | None => ret tt
     end);;
    let* found := _findPreviousWithEvent env (inputValue env)
                    (searchOptions env (Some true)) in
    emit (EUpdateButtons found));;
  ret false.

Definition _onFocusTrackerFocus (env : Env) : M unit :=
  when (getContribution env) (
    let* d := get_overrideCopyOnSelection env false in
    updateWidget (set_disposable d));;
  updateWidget (set_findWidgetFocused true).

Definition _onFocusTrackerBlur (env : Env) : M unit :=
  when (instance_xterm env) (emit EClearActiveSearchDecoration);;
  updateWidget (set_findWidgetFocused false).

Definition _onFindInputFocusTrackerFocus : M unit :=
  updateWidget (set_findInputFocused true).

Definition _onFindInputFocusTrackerBlur : M unit :=
  updateWidget (set_findInputFocused false).

Definition findFirst (env : Env) : M unit :=
  when (hasSelection env) (emit EClearSelection);;
  when (instance_xterm env) (
    _findPreviousWithEvent env (inputValue env) (searchOptions env None);;
    ret tt).

(** The listeners the constructor puts on [onDidColorThemeChange] and on
    [onDidChangeConfiguration] ([affects] is
    [e.affectsConfiguration('workbench.colorCustomizations')]); the one
    on [state.onFindReplaceStateChange] is [show]. *)
Definition onDidColorThemeChange_listener (env : Env) : M unit :=
  when (isVisible env) (find env true (Some true)).

Definition onDidChangeConfiguration_listener (env : Env) (affects : bool)
  : M unit :=
  when (affects && isVisible env) (find env true (Some true)).

(** ** The terminal's selection-changed event *)

Fixpoint emits (es : list Effect) : M unit :=
  match es with
  | [] => ret tt
  | e :: es => emit e;; emits es
  end.

Definition pendingOnceListeners : M nat := fun w =>
  Normal (from_option onceSelectionListeners 0 (findWidget w)) w [].

(** Modelled from the spec: [Emitter] and [Event.once] of
    [base/common/event.js] are not among the sources.  Listeners of one
    event "fire in subscription order", and a one-shot listener "clears
    the active highlight decoration the next time the terminal's
    selection changes": when [xterm.onDidChangeSelection] fires, the
    contribution's listener (there since [xtermReady], taken to be the
    first subscribed) runs, then each one-shot listener left by a search
    clears the active search decoration and is gone. *)
Definition fire_onDidChangeSelection (env : Env) : M unit :=
  let* x := this _xterm in
  when x (onDidChangeSelection_listener env);;
  let* n := pendingOnceListeners in
  updateWidget (set_onceSelectionListeners 0);;
  emits (repeat EClearActiveSearchDecoration n).

(** ** The system: calls that reach the two objects *)

Inductive Op : Type :=
| OpXtermReady
| OpSelectionChange
| OpRequestCopyAsHtml (command : option string)
| OpCopySelection (asHtml : option bool) (command : option string)
| OpPaste
| OpPasteSelection
| OpMouseEvent (event : MouseEvent)
| OpOverrideCopyOnSelection (value : bool)
| OpDispose (d : IDisposable)
| OpNewFindWidget
| OpInputChanged
| OpFocusTrackerFocus
| OpFocusTrackerBlur
| OpFindInputFocusTrackerFocus
| OpFindInputFocusTrackerBlur
| OpFind (previous : bool) (update : option bool)
| OpFindFirst
| OpShow
| OpReveal
| OpHide
| OpFindReplaceStateChange
| OpColorThemeChange
| OpConfigurationChange (affects : bool).

Definition ignore {A} (m : M A) : M unit := m;; ret tt.

(** A method of the find widget runs only on a constructed widget. *)
Definition onWidget (m : M unit) : M unit := fun w =>
  match findWidget w with
  | Some _ => m w
  | None => Normal tt w []
  end.

Definition run (env : Env) (op : Op) : M unit :=
  match op with
  | OpXtermReady => xtermReady
  | OpSelectionChange => fire_onDidChangeSelection env
  | OpRequestCopyAsHtml command => onDidRequestCopyAsHtml_listener command
  | OpCopySelection asHtml command => copySelection asHtml command
  | OpPaste => action_paste env
  | OpPasteSelection => action_pasteSelection env
  | OpMouseEvent event => ignore (handleMouseEvent env event)
  | OpOverrideCopyOnSelection value => ignore (overrideCopyOnSelection value)
  | OpDispose d => dispose d
  | OpNewFindWidget => newTerminalFindWidget env
  | OpInputChanged => onWidget (ignore (_onInputChanged env))
  | OpFocusTrackerFocus => onWidget (_onFocusTrackerFocus env)
  | OpFocusTrackerBlur => onWidget (_onFocusTrackerBlur env)
  | OpFindInputFocusTrackerFocus => onWidget _onFindInputFocusTrackerFocus
  | OpFindInputFocusTrackerBlur => onWidget _onFindInputFocusTrackerBlur
  | OpFind previous update => onWidget (find env previous update)
  | OpFindFirst => onWidget (findFirst env)
  | OpShow => onWidget (show env)
  | OpReveal => onWidget (reveal env)
  | OpHide => onWidget (hide env)
  | OpFindReplaceStateChange => onWidget (show env)
  | OpColorThemeChange => onWidget (onDidColorThemeChange_listener env)
  | OpConfigurationChange affects =>
      onWidget (onDidChangeConfiguration_listener env affects)
  end.

(** The world after a series of calls, each made with the answers the
    collaborators give at that time.  A call that throws ends that call
    only: the next one starts from the world it left. *)
Fixpoint after (calls : list (Env * Op)) (w : World) : World :=
  match calls with
  | [] => w
  | (env, op) :: calls => after calls (world_of (run env op w))
  end.

Inductive reachable : World -> Prop :=
| reachable_init : reachable initialWorld
| reachable_step env op w :
    reachable w -> reachable (world_of (run env op w)).

(** ** Vocabulary of the properties *)

(** The state of the override lock: [None] is unset. *)
Definition override (w : World) : option bool :=
  _overrideCopySelection (clipboard w).

(** The last-copied selection snapshot. *)
Definition snapshot (w : World) : option string * option IBufferRange :=
  (_previousSelection (clipboard w), _previousSelectionPosition (clipboard w)).

(** The selection the terminal reports, in the shape of a snapshot. *)
Definition currentSelection (env : Env) : option string * option IBufferRange :=
  (Some (getSelection env), getSelectionPosition env).

(** The effects of a paste on the terminal and on the subscribers. *)
Definition pasteVisible (e : Effect) : bool :=
  match e with
  | EInstanceFocus _ | EWillPaste _ | ERawPaste _ | EDidPaste _ => true
  | _ => false
  end.

Definition isCopy (e : Effect) : bool :=
  match e with
  | EXtermCopySelection _ _ => true
  | _ => false
  end.

Definition isSnapshotWrite (e : Effect) : bool :=
  match e with
  | EAssignPreviousSelection _ | EAssignPreviousSelectionPosition _ => true
  | _ => false
  end.

(** The writes of the snapshot and the copies, the events whose order
    the deduplication rests on. *)
Definition snapshotOrCopy (e : Effect) : bool :=
  isSnapshotWrite e || isCopy e.

Definition isAssignOverride (e : Effect) : bool :=
  match e with
  | EAssignOverride _ => true
  | _ => false
  end.

Definition isReadText (e : Effect) : bool :=
  match e with
  | EReadText _ => true
  | _ => false
  end.

(** [dispose] invoked [n] times in a row on one disposable. *)
Fixpoint dispose_times (n : nat) (d : IDisposable) : M unit :=
  match n with
  | 0 => ret tt
  | S n => dispose d;; dispose_times n d
  end.

(** Whether the find widget holds a disposable that has not been
    disposed yet. *)
Definition holdsLiveDisposable (w : World) : bool :=
  match findWidget w ≫= _overrideCopyOnSelectionDisposable with
  | Some d => bool_decide (disposables w !! d = Some false)
  | None => false
  end.

(** The number of disposables not disposed yet. *)
Fixpoint live (ds : list bool) : nat :=
  match ds with
  | [] => 0
  | disposed :: ds => (if disposed then 0 else 1) + live ds
  end.

(** Single ownership: the override is held exactly when one disposable
    is live, and no more than one ever is. *)
Definition singleOwner (w : World) : Prop :=
  live (disposables w) = match override w with Some _ => 1 | None => 0 end.

(** Decimal digits, for the strings [JSON.stringify] prints numbers as. *)
Definition is_digit (c : ascii) : bool :=
  (48 <=? nat_of_ascii c)%nat && (nat_of_ascii c <=? 57)%nat.

Fixpoint all_digits (s : string) : bool :=
  match s with
  | EmptyString => true
  | String c s => is_digit c && all_digits s
  end.

(** Sample environments: copy on selection is on, the instance has the
    contribution and a terminal, an error of a listener stays in the
    emitter; the selection and the paste guard vary. *)
Definition sampleRange : IBufferRange := mkRange (mkCell 1 1) (mkCell 6 1).

Definition sampleClipboard (c : ClipboardType) : string :=
  match c with
  | DefaultClipboard => "from default"
  | SelectionClipboard => "from selection"
  end.

Definition envWith (selection : string) (position : option IBufferRange)
    (guard : string -> bool -> ShouldPaste) : Env :=
  {| copyOnSelection := true;
     getSelection := selection;
     getSelectionPosition := position;
     hasSelection := true;
     readText := sampleClipboard;
     bracketedPasteMode := false;
     shouldPasteTerminalText := guard;
     getContribution := true;
     instance_xterm := true;
     listenerErrorPropagates := false;
     inputValue := "needle";
     regexValue := false;
     wholeWordValue := false;
     caseSensitiveValue := false;
     isVisible := true;
     foundMatch := true;
     middleClickBehavior := "default";
     rightClickBehavior := "selectWord";
     clipboardReadText := true;
     isMacintosh := false |}.

(** "hello" is selected and the guard approves. *)
Definition sampleEnv : Env :=
  envWith "hello" (Some sampleRange) (fun _ _ => PasteBool true).

(** The same with another selection. *)
Definition otherEnv : Env :=
  envWith "world" (Some (mkRange (mkCell 1 2) (mkCell 6 2)))
    (fun _ _ => PasteBool true).

(** The same as [sampleEnv] with a guard that rejects, and with one that
    rewrites the text. *)
Definition rejectingEnv : Env :=
  envWith "hello" (Some sampleRange) (fun _ _ => PasteBool false).

Definition rewritingEnv : Env :=
  envWith "hello" (Some sampleRange) (fun _ _ => PasteObject "rewritten").

(** The world once some caller has taken the override with [value]. *)
Definition heldWorld (value : bool) : World :=
  world_of (overrideCopyOnSelection value initialWorld).

(** The terminal is ready and the find widget is constructed. *)
Definition readyWorld : World :=
  after [(sampleEnv, OpXtermReady); (sampleEnv, OpNewFindWidget)] initialWorld.

(** The find widget has then gained focus, and has then lost it. *)
Definition focusedWorld : World :=
  after [(sampleEnv, OpFocusTrackerFocus)] readyWorld.

Definition blurredWorld : World :=
  after [(sampleEnv, OpFocusTrackerBlur)] focusedWorld.

(** ** The actions that copy the last command

    [CopyLastCommand], [CopyLastCommandOutput] and
    [CopyLastCommandAndLastCommandOutput] read the commands of the
    command-detection capability and hand at most one text to
    [clipboardService.writeText]: each is embedded as the text it
    writes, [None] when it writes nothing. *)

(** What these actions read of an [ITerminalCommand]. *)
Record ITerminalCommand : Type := mkCommand {
  cmd_command : string;            (* command.command *)
  cmd_hasOutput : bool;            (* command.hasOutput() *)
  cmd_getOutput : option string    (* command.getOutput() *)
}.

Definition newline : string := String (ascii_of_nat 10) EmptyString.

(** [commands[commands.length - 1]], read once [commands] is known to be
    defined and not empty; [commands] is [None] when the instance has no
    command detection. *)
Definition lastCommand (commands : option (list ITerminalCommand))
  : option ITerminalCommand :=
  match commands with
  | None => None
  | Some commands =>
      if (length commands =? 0)%nat then None
      else commands !! (length commands - 1)
  end.

Definition copyLastCommand (commands : option (list ITerminalCommand))
  : option string :=
  match lastCommand commands with
  | None => None
  | Some command =>
      if String.eqb (cmd_command command) EmptyString then None
      else Some (cmd_command command)
  end.

Definition copyLastCommandOutput (commands : option (list ITerminalCommand))
  : option string :=
  match lastCommand commands with
  | None => None
  | Some command =>
      if negb (cmd_hasOutput command) then None
      else cmd_getOutput command
  end.

Definition copyLastCommandAndOutput (commands : option (list ITerminalCommand))
  : option string :=
  match lastCommand commands with
  | None => None
  | Some command =>
      if negb (cmd_hasOutput command) then None
      else
        match cmd_getOutput command with
        | Some output =>
            Some ((if negb (String.eqb (cmd_command command) EmptyString)
                   then cmd_command command +:+ newline
                   else EmptyString) +:+ output)
        | None => None
        end
  end.

(** ** Vocabulary of the further properties *)

(** The calls that dispose a disposable: a change of the find input, and
    a holder disposing the one it was given. *)
Definition releases (op : Op) : bool :=
  match op with
  | OpInputChanged | OpDispose _ => true
  | _ => false
  end.

(** Whether the find widget listens to [onWillPaste]. *)
Definition subscribed (w : World) : bool :=
  from_option willPasteSubscribed false (findWidget w).

(** The one-shot selection listeners the find widget has pending. *)
Definition pendingOnce (w : World) : nat :=
  from_option onceSelectionListeners 0 (findWidget w).

(** Whether a selection-changed event copies: the listener is there,
    copy on selection is on, the override does not hold [false], the
    selection differs from the snapshot, and there is a selection. *)
Definition copiesOnSelection (env : Env) (w : World) : bool :=
  _xterm (clipboard w)
  && copyOnSelection env
  && negb (bool_decide (override w = Some false))
  && negb (bool_decide (currentSelection env = snapshot w))
  && hasSelection env.

(** Whether a [paste] reaches the listener of the find widget with the
    override free for it to take. *)
Definition pasteTakesOverride (env : Env) (w : World) : bool :=
  _xterm (clipboard w)
  && truthy (shouldPasteTerminalText env (readText env DefaultClipboard)
               (bracketedPasteMode env))
  && subscribed w
  && getContribution env
  && bool_decide (override w = None).

(** Whether [handleMouseEvent] answers [{ handled: true }]. *)
Definition handlesMouse (env : Env) (event : MouseEvent) : bool :=
  ((button event =? 1)%N && String.eqb (middleClickBehavior env) "paste")
  || ((button event =? 2)%N && negb (shiftKey event)
      && (String.eqb (rightClickBehavior env) "copyPaste"
          || String.eqb (rightClickBehavior env) "paste")).

(** Sample environments for the mouse: the two click behaviours, whether
    text is selected, whether the browser can read the clipboard, and
    the platform. *)
Definition mouseEnv (middle right : string) (selected canRead mac : bool) : Env :=
  {| copyOnSelection := true;
     getSelection := "hello";
     getSelectionPosition := Some sampleRange;
     hasSelection := selected;
     readText := sampleClipboard;
     bracketedPasteMode := false;
     shouldPasteTerminalText := fun _ _ => PasteBool true;
     getContribution := true;
     instance_xterm := true;
     listenerErrorPropagates := false;
     inputValue := "needle";
     regexValue := false;
     wholeWordValue := false;
     caseSensitiveValue := false;
     isVisible := true;
     foundMatch := true;
     middleClickBehavior := middle;
     rightClickBehavior := right;
     clipboardReadText := canRead;
     isMacintosh := mac |}.

Definition rightClick : MouseEvent := mkMouseEvent 2 false.

(** Nothing is selected and the find input is empty. *)
Definition emptyQueryEnv : Env :=
  {| copyOnSelection := true;
     getSelection := EmptyString;
     getSelectionPosition := None;
     hasSelection := false;
     readText := sampleClipboard;
     bracketedPasteMode := false;
     shouldPasteTerminalText := fun _ _ => PasteBool true;
     getContribution := true;
     instance_xterm := true;
     listenerErrorPropagates := false;
     inputValue := EmptyString;
     regexValue := false;
     wholeWordValue := false;
     caseSensitiveValue := false;
     isVisible := true;
     foundMatch := false;
     middleClickBehavior := "default";
     rightClickBehavior := "selectWord";
     clipboardReadText := true;
     isMacintosh := false |}.

(** Two lines are selected. *)
Definition twoLinesEnv : Env :=
  envWith ("first" +:+ newline +:+ "second") (Some sampleRange)
    (fun _ _ => PasteBool true).

Definition sampleCommands : list ITerminalCommand :=
  [mkCommand "ls" true (Some "a b");
   mkCommand "pwd" true (Some "/root")].

Definition isDispose (op : Op) : bool :=
  match op with
  | OpDispose _ => true
  | _ => false
  end.

(** The effects that copy from the terminal or paste into it. *)
Definition touchesTerminal (e : Effect) : bool :=
  match e with
  | EXtermCopySelection _ _ | EWillPaste _ | ERawPaste _ | EDidPaste _ => true
  | _ => false
  end.

(** A day of use without a direct dispose: the widget is focused, typed
    into, left and hidden, text is pasted and selected. *)
Definition ordinaryCalls : list (Env * Op) :=
  [(sampleEnv, OpFocusTrackerFocus); (sampleEnv, OpInputChanged);
   (sampleEnv, OpFocusTrackerBlur); (sampleEnv, OpPaste);
   (otherEnv, OpSelectionChange); (sampleEnv, OpHide);
   (sampleEnv, OpPasteSelection)].

(** * Properties *)

(** ** [JSON.stringify] tells selection positions apart *)

Lemma pretty_N_char_digit (n : N) : is_digit (pretty_N_char n) = true.
Proof. unfold pretty_N_char. repeat case_match; reflexivity. Qed.

Lemma pretty_N_go_digits (n : N) (s : string) :
  all_digits s = true -> all_digits (pretty_N_go n s) = true.
Proof.
  revert s. induction (N.lt_wf_0 n) as [n _ IH]. intros s Hs.
  destruct (decide (n = 0%N)) as [->|Hn].
  - rewrite pretty_N_go_0. exact Hs.
  - rewrite pretty_N_go_step by lia.
    apply IH.
    + apply N.div_lt; lia.
    + cbn [all_digits]. rewrite pretty_N_char_digit. exact Hs.
Qed.

Lemma pretty_N_digits (n : N) : all_digits (pretty n) = true.
Proof.
  unfold pretty, pretty_N. case_decide.
  - reflexivity.
  - apply pretty_N_go_digits. reflexivity.
Qed.

Lemma append_nil_l (s : string) : EmptyString +:+ s = s.
Proof. reflexivity. Qed.

Lemma append_cons_l (c : ascii) (s t : string) :
  String c s +:+ t = String c (s +:+ t).
Proof. reflexivity. Qed.

Lemma append_assoc_string (a b c : string) : (a +:+ b) +:+ c = a +:+ (b +:+ c).
Proof.
  induction a as [|x a IH]; rewrite ?append_nil_l, ?append_cons_l; congruence.
Qed.

Ltac string_heads :=
  rewrite ?append_assoc_string; repeat rewrite ?append_cons_l, ?append_nil_l.

Lemma String_tail_eq (a b : ascii) (s t : string) :
  String a s = String b t -> s = t.
Proof. congruence. Qed.

Ltac strip_heads H := repeat apply String_tail_eq in H.

(** A run of digits followed by a character that is no digit is cut at
    one place only. *)
Lemma digits_cut (d1 d2 : string) (c : ascii) (r1 r2 : string) :
  all_digits d1 = true -> all_digits d2 = true -> is_digit c = false ->
  d1 +:+ String c r1 = d2 +:+ String c r2 -> d1 = d2 /\ r1 = r2.
Proof.
  revert d2. induction d1 as [|a d1 IH]; intros [|b d2] H1 H2 Hc Heq;
    rewrite ?append_nil_l, ?append_cons_l in Heq; cbn [all_digits] in *.
  - injection Heq as ->. auto.
  - injection Heq as -> _. apply andb_true_iff in H2 as [H2 _]. congruence.
  - injection Heq as -> _. apply andb_true_iff in H1 as [H1 _]. congruence.
  - injection Heq as -> Heq.
    apply andb_true_iff in H1 as [_ H1]. apply andb_true_iff in H2 as [_ H2].
    destruct (IH d2 H1 H2 Hc Heq) as [-> ->]. auto.
Qed.

Lemma pretty_N_cut (n m : N) (c : ascii) (r1 r2 : string) :
  is_digit c = false ->
  pretty n +:+ String c r1 = pretty m +:+ String c r2 -> n = m /\ r1 = r2.
Proof.
  intros Hc Heq.
  destruct (digits_cut _ _ _ _ _ (pretty_N_digits n) (pretty_N_digits m) Hc Heq)
    as [Hp ->].
  split; [|reflexivity]. now apply (inj pretty).
Qed.

Lemma JSON_stringify_cell_cut (p q : IBufferCellPosition) (r1 r2 : string) :
  JSON_stringify_cell p +:+ r1 = JSON_stringify_cell q +:+ r2 -> p = q /\ r1 = r2.
Proof.
  destruct p as [px py], q as [qx qy].
  unfold JSON_stringify_cell, json_key, dquote. cbn [cell_x cell_y].
  string_heads. intros Heq. strip_heads Heq.
  apply pretty_N_cut in Heq as [-> Heq]; [|reflexivity].
  strip_heads Heq.
  apply pretty_N_cut in Heq as [-> Heq]; [|reflexivity].
  auto.
Qed.

Lemma JSON_stringify_range_inj (r s : IBufferRange) :
  JSON_stringify_range r = JSON_stringify_range s -> r = s.
Proof.
  destruct r as [r1 r2], s as [s1 s2].
  unfold JSON_stringify_range, json_key, dquote. cbn [range_start range_end].
  pose proof (JSON_stringify_cell_cut r1 s1) as Hstart.
  pose proof (JSON_stringify_cell_cut r2 s2) as Hend.
  generalize dependent (JSON_stringify_cell r1).
  generalize dependent (JSON_stringify_cell r2).
  generalize dependent (JSON_stringify_cell s1).
  generalize dependent (JSON_stringify_cell s2).
  intros c4 c3 c2 Hend c1 Hstart.
  string_heads. intros Heq. strip_heads Heq.
  apply Hstart in Heq as [-> Heq].
  strip_heads Heq.
  apply Hend in Heq as [-> _].
  reflexivity.
Qed.

Lemma JSON_stringify_inj (a b : option IBufferRange) :
  JSON_stringify a = JSON_stringify b <-> a = b.
Proof.
  split; [|now intros ->].
  destruct a, b; cbn [JSON_stringify]; try congruence.
  intros H. apply (inj Some) in H. f_equal. now apply JSON_stringify_range_inj.
Qed.

(** ** Equations of the actions *)

Lemma emits_eq (es : list Effect) (w : World) : emits es w = Normal tt w es.
Proof.
  induction es as [|e es IH]; [reflexivity|].
  cbn [emits]. unfold bind, emit. rewrite IH. reflexivity.
Qed.

Ltac unfold_actions :=
  unfold run, ignore, onWidget, action_paste, action_pasteSelection,
    handleMouseEvent, detached, onDidColorThemeChange_listener,
    onDidChangeConfiguration_listener, show, reveal, fire_onDidChangeSelection,
    pendingOnceListeners,
    onDidChangeSelection_listener, onDidRequestCopyAsHtml_listener, copySelection,
    xtermReady, paste, pasteSelection, _paste, fire_onWillPaste, fire_onDidPaste,
    willPasteListeners, deliver, onWillPaste_listener, newTerminalFindWidget,
    _onInputChanged, _onFocusTrackerFocus, _onFocusTrackerBlur,
    _onFindInputFocusTrackerFocus, _onFindInputFocusTrackerBlur, find, findFirst,
    hide, _findPreviousWithEvent, _findNextWithEvent, registerOnceSelectionListener,
    get_overrideCopyOnSelection, overrideCopyOnSelection, toDisposable, dispose,
    markDisposed, clearOverride, when, bind, ret, throw, emit, this, update,
    updateWidget, thisWidget in *.

Ltac run_action :=
  unfold_actions; rewrite ?emits_eq in *; cbn in *;
  repeat (case_match; cbn in *; rewrite ?emits_eq in *; simplify_eq);
  cbn in *.

(** Every error a call of the system ends with is the double-override
    error, and the override is held when the call ends. *)
Lemma run_error (env : Env) (op : Op) (w : World) (e : string) :
  error_of (run env op w) = Some e ->
  e = multipleOverrideError /\
  is_Some (_overrideCopySelection (clipboard (world_of (run env op w)))).
Proof.
  destruct w as [[x o s p] f ds], op; run_action; intros; simplify_eq; eauto.
Qed.

(** ** The override lock *)

(** C1. A call to [overrideCopyOnSelection] made while the override is
    held (true or false) throws and leaves the world, so the held value,
    as it was; it throws in no other case; and this error is the only one
    any call of the system ends with, the override being held whenever
    one does. *)
Theorem overrideCopyOnSelection_held_throws :
  (forall (w : World) (value : bool),
      is_Some (override w) ->
      overrideCopyOnSelection value w = Thrown multipleOverrideError w [])
  /\ (forall (w : World) (value : bool),
        override w = None ->
        error_of (overrideCopyOnSelection value w) = None)
  /\ (forall (env : Env) (op : Op) (w : World) (e : string),
        error_of (run env op w) = Some e ->
        e = multipleOverrideError /\
        is_Some (override (world_of (run env op w)))).
Proof.
  split; [|split].
  - intros w value [held Hheld]. unfold override in Hheld.
    unfold overrideCopyOnSelection, bind, this, throw. rewrite Hheld. reflexivity.
  - intros w value Hfree. unfold override in Hfree.
    unfold overrideCopyOnSelection, bind, this. rewrite Hfree. reflexivity.
  - intros env op w e. apply run_error.
Qed.

(** C9. A call to [overrideCopyOnSelection] that throws leaves the world
    unchanged: the value held before (true or false) is still held. *)
Theorem overrideCopyOnSelection_failure_keeps_state
    (w : World) (value : bool) (e : string) (w' : World) (tr : list Effect) :
  overrideCopyOnSelection value w = Thrown e w' tr ->
  w' = w /\ is_Some (override w) /\ override w' = override w.
Proof.
  unfold overrideCopyOnSelection, override, bind, this, throw, update, emit,
    toDisposable.
  destruct (_overrideCopySelection (clipboard w)) as [held|] eqn:Hheld; cbn.
  - intros [= <- <- <-]. rewrite Hheld. eauto.
  - discriminate.
Qed.

Lemma overrideCopyOnSelection_failure_keeps_state_witness :
  override (heldWorld true) = Some true /\
  override (world_of (overrideCopyOnSelection false (heldWorld true))) = Some true.
Proof.
  split; [reflexivity|].
  destruct (overrideCopyOnSelection_failure_keeps_state (heldWorld true) false
              multipleOverrideError (heldWorld true) [] eq_refl) as (_ & _ & H).
  exact H.
Defined.

(** C2. After a call to [overrideCopyOnSelection] that succeeds, the
    disposable it returns resets the override to unset at its first
    [dispose]; every further [dispose] changes nothing, so after one or
    more of them the override is unset. *)
Theorem overrideCopyOnSelection_dispose_resets
    (w : World) (value : bool) (d : IDisposable) (w1 : World)
    (tr : list Effect) (n : nat) :
  overrideCopyOnSelection value w = Normal d w1 tr ->
  override w1 = Some value /\
  override (world_of (dispose d w1)) = None /\
  dispose d (world_of (dispose d w1)) = Normal tt (world_of (dispose d w1)) [] /\
  override (world_of (dispose_times (S n) d w1)) = None.
Proof.
  unfold overrideCopyOnSelection, bind, this, throw, update, emit, toDisposable.
  destruct (_overrideCopySelection (clipboard w)) eqn:Hfree; cbn; [discriminate|].
  intros [= <- <- <-].
  assert (Hfirst : dispose (length (disposables w))
            (mkWorld (set_overrideCopySelection (Some value) (clipboard w))
               (findWidget w) (disposables w ++ [false]))
          = Normal tt
              (mkWorld (set_overrideCopySelection None (clipboard w))
                 (findWidget w) (disposables w ++ [true]))
              [EAssignOverride None]).
  { unfold dispose, markDisposed, clearOverride, bind, update, emit. cbn.
    rewrite lookup_app_r, Nat.sub_diag by lia. cbn.
    rewrite insert_app_r_alt, Nat.sub_diag by lia. reflexivity. }
  assert (Hagain : forall w2,
            disposables w2 = disposables w ++ [true] ->
            dispose (length (disposables w)) w2 = Normal tt w2 []).
  { intros w2 Hds. unfold dispose. rewrite Hds.
    rewrite lookup_app_r, Nat.sub_diag by lia. reflexivity. }
  rewrite Hfirst. cbn [world_of].
  split; [reflexivity|]. split; [reflexivity|]. split; [now apply Hagain|].
  cbn [dispose_times]. unfold bind at 1. rewrite Hfirst.
  assert (Hrest : forall m w2,
            disposables w2 = disposables w ++ [true] ->
            dispose_times m (length (disposables w)) w2 = Normal tt w2 []).
  { induction m as [|m IH]; intros w2 Hds; [reflexivity|].
    cbn [dispose_times]. unfold bind. rewrite (Hagain w2 Hds), (IH w2 Hds).
    reflexivity. }
  rewrite Hrest by reflexivity. reflexivity.
Qed.

Lemma overrideCopyOnSelection_dispose_resets_witness :
  override (heldWorld false) = Some false /\
  override (world_of (dispose_times 3 0 (heldWorld false))) = None.
Proof.
  destruct (overrideCopyOnSelection_dispose_resets initialWorld false 0
              (heldWorld false) [EAssignOverride (Some false)] 2 eq_refl)
    as (H1 & _ & _ & H2).
  split; [exact H1 | exact H2].
Defined.

(** ** Copy on selection *)

Lemma no_copy_in_clears (n : nat) :
  filter isCopy (repeat EClearActiveSearchDecoration n) = [].
Proof. induction n; auto. Qed.

(** C3. While the override holds [false], the listener on selection
    changes does nothing at all, whatever the configuration and the
    selection: the world is unchanged and nothing is emitted, so the
    event copies nothing. *)
Theorem selection_change_suppressed (env : Env) (w : World) :
  override w = Some false ->
  onDidChangeSelection_listener env w = Normal tt w [] /\
  filter isCopy (trace_of (run env OpSelectionChange w)) = [] /\
  snapshot (world_of (run env OpSelectionChange w)) = snapshot w.
Proof.
  unfold override. intros Hheld.
  assert (Hl : onDidChangeSelection_listener env w = Normal tt w []).
  { unfold onDidChangeSelection_listener, when, bind, this, ret.
    destruct (copyOnSelection env); [|reflexivity].
    rewrite Hheld. reflexivity. }
  split; [exact Hl|].
  unfold run, fire_onDidChangeSelection, bind, this, when, pendingOnceListeners,
    updateWidget, ret.
  destruct (_xterm (clipboard w)); rewrite ?Hl, emits_eq; cbn;
    (split; [apply no_copy_in_clears | reflexivity]).
Qed.

Lemma selection_change_suppressed_witness :
  currentSelection otherEnv <> snapshot focusedWorld /\
  onDidChangeSelection_listener otherEnv focusedWorld = Normal tt focusedWorld [].
Proof.
  split; [discriminate|].
  apply (selection_change_suppressed otherEnv focusedWorld eq_refl).
Defined.

(** The test the listener makes: text and position both equal those of
    the snapshot. *)
Lemma same_selection_test (env : Env) (w : World) :
  bool_decide (Some (getSelection env) = _previousSelection (clipboard w))
  && bool_decide (JSON_stringify (getSelectionPosition env)
                  = JSON_stringify (_previousSelectionPosition (clipboard w)))
  = bool_decide (currentSelection env = snapshot w).
Proof.
  unfold currentSelection, snapshot.
  apply eq_true_iff_eq.
  rewrite andb_true_iff, !bool_decide_eq_true, JSON_stringify_inj.
  split; [intros [-> ->]; reflexivity | intros [= -> ->]; auto].
Qed.

Lemma no_snapshot_write_in_clears (n : nat) :
  filter isSnapshotWrite (repeat EClearActiveSearchDecoration n) = [].
Proof. induction n; auto. Qed.

Lemma no_snapshot_or_copy_in_clears (n : nat) :
  filter snapshotOrCopy (repeat EClearActiveSearchDecoration n) = [].
Proof. induction n; auto. Qed.

(** No call but a selection change that copies touches the snapshot, and
    that one writes its two fields and then copies. *)
Lemma snapshot_written_by_copy_only (env : Env) (op : Op) (w : World) :
  snapshot (world_of (run env op w)) <> snapshot w
  \/ filter isSnapshotWrite (trace_of (run env op w)) <> [] ->
  op = OpSelectionChange /\
  snapshot (world_of (run env op w)) = currentSelection env /\
  filter snapshotOrCopy (trace_of (run env op w))
  = [EAssignPreviousSelection (getSelection env);
     EAssignPreviousSelectionPosition (getSelectionPosition env);
     EXtermCopySelection None None] /\
  filter isCopy (trace_of (run env op w)) = [EXtermCopySelection None None].
Proof.
  unfold snapshot, currentSelection.
  destruct w as [[x o s p] f ds], op; run_action;
    rewrite ?no_snapshot_write_in_clears;
    intros [Hchanged | Hchanged]; try (now destruct Hchanged);
    (split; [reflexivity|]); (split; [reflexivity|]); cbn;
    rewrite no_snapshot_or_copy_in_clears, no_copy_in_clears; auto.
Qed.

(** C4. With copy on selection enabled, the override not holding [false]
    and the terminal set: a selection whose text and position equal the
    snapshot is not copied and changes nothing; any other selection,
    when there is one, is first recorded in the snapshot (its text, then
    its position) and then, with nothing in between, copied exactly
    once, and the same event once more copies nothing; without a
    selection nothing happens.  No other call of the system writes the
    snapshot: a call that changes it or assigns to it is a selection
    change that makes these two assignments right before its one
    copy. *)
Theorem selection_change_copies_once (env : Env) (w : World) :
  copyOnSelection env = true ->
  override w <> Some false ->
  _xterm (clipboard w) = true ->
  (currentSelection env = snapshot w ->
     onDidChangeSelection_listener env w = Normal tt w [])
  /\ (currentSelection env <> snapshot w -> hasSelection env = true ->
        onDidChangeSelection_listener env w
        = Normal tt
            (mkWorld
               (set_previousSelectionPosition (getSelectionPosition env)
                  (set_previousSelection (Some (getSelection env)) (clipboard w)))
               (findWidget w) (disposables w))
            [EAssignPreviousSelection (getSelection env);
             EAssignPreviousSelectionPosition (getSelectionPosition env);
             EXtermCopySelection None None]
        /\ filter isCopy (trace_of (onDidChangeSelection_listener env w))
           = [EXtermCopySelection None None]
        /\ snapshot (world_of (onDidChangeSelection_listener env w))
           = currentSelection env
        /\ trace_of (onDidChangeSelection_listener env
                       (world_of (onDidChangeSelection_listener env w))) = [])
  /\ (currentSelection env <> snapshot w -> hasSelection env = false ->
        onDidChangeSelection_listener env w = Normal tt w [])
  /\ (forall (env' : Env) (op : Op) (w' : World),
        snapshot (world_of (run env' op w')) <> snapshot w'
        \/ filter isSnapshotWrite (trace_of (run env' op w')) <> [] ->
        op = OpSelectionChange /\
        snapshot (world_of (run env' op w')) = currentSelection env' /\
        filter snapshotOrCopy (trace_of (run env' op w'))
        = [EAssignPreviousSelection (getSelection env');
           EAssignPreviousSelectionPosition (getSelectionPosition env');
           EXtermCopySelection None None] /\
        filter isCopy (trace_of (run env' op w')) = [EXtermCopySelection None None]).
Proof.
  unfold override. intros Hon Hover Hx.
  assert (Hstep : onDidChangeSelection_listener env w
          = if bool_decide (currentSelection env = snapshot w) then Normal tt w []
            else if hasSelection env then
              Normal tt
                (mkWorld
                   (set_previousSelectionPosition (getSelectionPosition env)
                      (set_previousSelection (Some (getSelection env)) (clipboard w)))
                   (findWidget w) (disposables w))
                [EAssignPreviousSelection (getSelection env);
                 EAssignPreviousSelectionPosition (getSelectionPosition env);
                 EXtermCopySelection None None]
            else Normal tt w []).
  { unfold onDidChangeSelection_listener, copySelection, when, bind, this,
      update, emit, ret.
    rewrite Hon. rewrite bool_decide_eq_false_2 by exact Hover.
    rewrite same_selection_test.
    destruct (bool_decide (currentSelection env = snapshot w)); [reflexivity|].
    destruct (hasSelection env); [|reflexivity].
    cbn. rewrite Hx. reflexivity. }
  rewrite Hstep.
  split; [|split; [|split]].
  - intros Heq. rewrite bool_decide_eq_true_2 by exact Heq. reflexivity.
  - intros Hne Hsel. rewrite bool_decide_eq_false_2 by exact Hne. rewrite Hsel.
    split; [reflexivity|]. split; [reflexivity|]. split; [reflexivity|].
    cbn [world_of].
    unfold onDidChangeSelection_listener, when, bind, this, ret.
    rewrite Hon. cbn.
    destruct (bool_decide (_overrideCopySelection (clipboard w) = Some false));
      [reflexivity|].
    rewrite !bool_decide_eq_true_2 by reflexivity. reflexivity.
  - intros Hne Hno. rewrite bool_decide_eq_false_2 by exact Hne. rewrite Hno.
    reflexivity.
  - intros env' op w'. apply snapshot_written_by_copy_only.
Qed.

Lemma selection_change_copies_once_witness :
  trace_of (onDidChangeSelection_listener sampleEnv readyWorld)
  = [EAssignPreviousSelection "hello";
     EAssignPreviousSelectionPosition (Some sampleRange);
     EXtermCopySelection None None]
  /\ trace_of (onDidChangeSelection_listener sampleEnv
                 (world_of (onDidChangeSelection_listener sampleEnv readyWorld)))
     = [].
Proof.
  destruct (selection_change_copies_once sampleEnv readyWorld eq_refl
              ltac:(discriminate) eq_refl) as (_ & H & _).
  destruct (H ltac:(discriminate) eq_refl) as (H1 & _ & _ & H2).
  split; [rewrite H1; reflexivity | exact H2].
Defined.

(** ** Paste *)

(** C5. When the paste guard rejects the clipboard text, [paste] is a
    no-op: the world is unchanged, the call ends normally, and nothing is
    written to the terminal, the terminal is not focused, and neither
    [onWillPaste] nor [onDidPaste] fires.  All that happens is the read
    of the default clipboard and, with a terminal set, the question to
    the guard. *)
Theorem paste_rejected_is_noop (env : Env) (w : World) :
  shouldPasteTerminalText env (readText env DefaultClipboard)
    (bracketedPasteMode env) = PasteBool false ->
  world_of (paste env w) = w /\
  error_of (paste env w) = None /\
  filter pasteVisible (trace_of (paste env w)) = [] /\
  trace_of (paste env w)
  = EReadText DefaultClipboard
      :: (if _xterm (clipboard w)
          then [EShouldPaste (readText env DefaultClipboard) (bracketedPasteMode env)]
          else []).
Proof.
  intros Hguard.
  unfold paste, _paste, bind, this, emit, ret.
  destruct (_xterm (clipboard w)); cbn; [|auto].
  rewrite Hguard. cbn. auto.
Qed.

Lemma paste_rejected_is_noop_witness :
  world_of (paste rejectingEnv readyWorld) = readyWorld /\
  filter pasteVisible (trace_of (paste rejectingEnv readyWorld)) = [].
Proof.
  destruct (paste_rejected_is_noop rejectingEnv readyWorld eq_refl)
    as (H1 & _ & H2 & _).
  split; [exact H1 | exact H2].
Defined.

Lemma filter_none_visible (l : list Effect) :
  Forall (fun e => pasteVisible e = false) l -> filter pasteVisible l = [].
Proof.
  induction 1 as [|e l He _ IH]; [reflexivity|].
  cbn. rewrite He. exact IH.
Qed.

(** The two ways a [paste] of rewritten text runs: to its end, with what
    the find widget's listener emits between [onWillPaste] and the write;
    or up to that listener, when it fails on a held override and its
    error reaches [paste]. *)
Lemma paste_modified_run (env : Env) (w : World) (modifiedText : string) :
  _xterm (clipboard w) = true ->
  shouldPasteTerminalText env (readText env DefaultClipboard)
    (bracketedPasteMode env) = PasteObject modifiedText ->
  exists (listened : list Effect),
    Forall (fun e => pasteVisible e = false) listened /\
    ((error_of (paste env w) = None /\
      trace_of (paste env w)
      = [EReadText DefaultClipboard;
         EShouldPaste (readText env DefaultClipboard) (bracketedPasteMode env);
         EInstanceFocus false; EWillPaste modifiedText]
        ++ listened ++ [ERawPaste modifiedText; EDidPaste modifiedText])
     \/ (error_of (paste env w) = Some multipleOverrideError /\
         listenerErrorPropagates env = true /\
         is_Some (override w) /\
         from_option willPasteSubscribed false (findWidget w) = true /\
         trace_of (paste env w)
         = [EReadText DefaultClipboard;
            EShouldPaste (readText env DefaultClipboard) (bracketedPasteMode env);
            EInstanceFocus false; EWillPaste modifiedText] ++ listened)).
Proof.
  intros Hx Hguard.
  destruct w as [[x o s p] f ds]. cbn in Hx. subst x.
  unfold paste, _paste, bind at 1 2, this, emit. cbn.
  rewrite Hguard. cbn.
  unfold override. cbn.
  destruct f as [f|]; [destruct (willPasteSubscribed f) eqn:Hsub|];
    destruct (getContribution env) eqn:Hget;
    destruct o as [held|];
    destruct (listenerErrorPropagates env) eqn:Hprop;
    run_action;
    first
      [ solve [exists []; split; [constructor|]; left; split; reflexivity]
      | solve [exists [EAssignOverride (Some false)];
               split; [repeat constructor|]; left; split; reflexivity]
      | solve [exists [EListenerError multipleOverrideError];
               split; [repeat constructor|]; left; split; reflexivity]
      | solve [exists []; split; [constructor|]; right; repeat split; eauto] ].
Qed.

(** C6. When the guard answers [{ modifiedText }] and a terminal is set,
    every text [paste] writes to the terminal or hands to [onWillPaste]
    and [onDidPaste] is [modifiedText]; [onWillPaste] does fire with it;
    and a call that ends normally has focused the terminal, fired
    [onWillPaste], written and fired [onDidPaste], in this order, each
    with [modifiedText].  The call ends normally unless an error of the
    find widget's listener reaches it. *)
Theorem paste_writes_modified_text (env : Env) (w : World) (modifiedText : string) :
  _xterm (clipboard w) = true ->
  shouldPasteTerminalText env (readText env DefaultClipboard)
    (bracketedPasteMode env) = PasteObject modifiedText ->
  (forall t : string,
      In (EWillPaste t) (trace_of (paste env w)) \/
      In (ERawPaste t) (trace_of (paste env w)) \/
      In (EDidPaste t) (trace_of (paste env w)) ->
      t = modifiedText)
  /\ In (EWillPaste modifiedText) (trace_of (paste env w))
  /\ (error_of (paste env w) = None ->
        filter pasteVisible (trace_of (paste env w))
        = [EInstanceFocus false; EWillPaste modifiedText;
           ERawPaste modifiedText; EDidPaste modifiedText])
  /\ (listenerErrorPropagates env = false \/ override w = None \/
      from_option willPasteSubscribed false (findWidget w) = false ->
        error_of (paste env w) = None).
Proof.
  intros Hx Hguard.
  destruct (paste_modified_run env w modifiedText Hx Hguard)
    as (listened & Hquiet & Hrun).
  pose proof (filter_none_visible listened Hquiet) as Hnone.
  assert (Hin : forall e, In e listened -> pasteVisible e = false).
  { intros e He. apply (proj1 (List.Forall_forall _ _) Hquiet e He). }
  destruct Hrun as [(Hok & Htr) | (Herr & Hprop & Hheld & Hsub & Htr)];
    rewrite Htr.
  - split; [|split; [|split]].
    + intros t. cbn. rewrite !in_app_iff. cbn.
      intros [H|[H|H]];
        repeat match goal with
          | H : _ \/ _ |- _ => destruct H
          | H : In _ listened |- _ => apply Hin in H; discriminate
          | H : _ = _ |- _ => first [discriminate H | injection H as <-]
          | H : False |- _ => destruct H
          end; reflexivity.
    + cbn. auto.
    + intros _. rewrite !filter_app, Hnone. reflexivity.
    + intros _. exact Hok.
  - split; [|split; [|split]].
    + intros t. cbn. rewrite ?in_app_iff. cbn.
      intros [H|[H|H]];
        repeat match goal with
          | H : _ \/ _ |- _ => destruct H
          | H : In _ listened |- _ => apply Hin in H; discriminate
          | H : _ = _ |- _ => first [discriminate H | injection H as <-]
          | H : False |- _ => destruct H
          end; reflexivity.
    + cbn. auto.
    + rewrite Herr. discriminate.
    + intros [H|[H|H]].
      * congruence.
      * rewrite H in Hheld. now destruct Hheld.
      * congruence.
Qed.

Lemma paste_writes_modified_text_witness :
  filter pasteVisible (trace_of (paste rewritingEnv readyWorld))
  = [EInstanceFocus false; EWillPaste "rewritten";
     ERawPaste "rewritten"; EDidPaste "rewritten"].
Proof.
  destruct (paste_writes_modified_text rewritingEnv readyWorld "rewritten"
              eq_refl eq_refl) as (_ & _ & H & _).
  apply H. reflexivity.
Defined.

(** ** Paste from the selection clipboard *)

(** C7, as worded, fails.  Called while the override is held (here by
    the focused find widget), [pasteSelection] throws before it reads any
    clipboard.  Called while the override is unset, it leaves the
    override at [false] when it ends: the disposable is dropped, and the
    next call throws. *)
Lemma pasteSelection_not_scoped :
  (override focusedWorld = Some false
   /\ pasteSelection sampleEnv focusedWorld
      = Thrown multipleOverrideError focusedWorld []
   /\ ~ In (EReadText SelectionClipboard)
          (trace_of (pasteSelection sampleEnv focusedWorld)))
  /\ (override readyWorld = None
      /\ override (world_of (pasteSelection sampleEnv readyWorld)) = Some false
      /\ error_of (pasteSelection sampleEnv
                     (world_of (pasteSelection sampleEnv readyWorld)))
         = Some multipleOverrideError).
Proof.
  split.
  - split; [reflexivity|]. split; [reflexivity|]. cbn. tauto.
  - split; [reflexivity|]. split; reflexivity.
Qed.

(** C7, amended.  A call to [pasteSelection] made while the override is
    unset first sets the override to [false], then reads the selection
    clipboard; nothing later in the call assigns the override or reads a
    clipboard again, so the default clipboard is never read and the
    override holds [false] up to the end of the call.  A call made while
    the override is held throws at once, with nothing read and nothing
    changed. *)
Theorem pasteSelection_takes_override (env : Env) (w : World) :
  match override w with
  | None =>
      exists rest : list Effect,
        trace_of (pasteSelection env w)
        = EAssignOverride (Some false) :: EReadText SelectionClipboard :: rest
        /\ filter isAssignOverride rest = []
        /\ filter isReadText rest = []
        /\ override (world_of (pasteSelection env w)) = Some false
  | Some _ => pasteSelection env w = Thrown multipleOverrideError w []
  end.
Proof.
  unfold override. destruct w as [[x o s p] f ds]. cbn.
  destruct o as [held|]; [reflexivity|].
  destruct x;
    destruct (truthy (shouldPasteTerminalText env (readText env SelectionClipboard)
                        (bracketedPasteMode env))) eqn:Hguard;
    destruct f as [f|]; try destruct (willPasteSubscribed f) eqn:Hsub;
    destruct (getContribution env) eqn:Hget;
    destruct (listenerErrorPropagates env) eqn:Hprop;
    unfold pasteSelection, _paste; unfold_actions; cbn;
    rewrite ?Hguard, ?Hsub, ?Hget, ?Hprop; cbn;
    rewrite ?Hguard, ?Hsub, ?Hget, ?Hprop; cbn;
    eexists; (split; [reflexivity|]); cbn; auto.
Qed.

(** ** The find widget and the override *)

(** Focus on a widget whose instance has the contribution takes an
    unset override with [false] and keeps the disposable. *)
Lemma focus_takes_override (env : Env) (w : World) (f : TerminalFindWidget) :
  getContribution env = true ->
  findWidget w = Some f ->
  override w = None ->
  error_of (_onFocusTrackerFocus env w) = None /\
  override (world_of (_onFocusTrackerFocus env w)) = Some false /\
  holdsLiveDisposable (world_of (_onFocusTrackerFocus env w)) = true.
Proof.
  unfold override, holdsLiveDisposable.
  destruct w as [[x o s p] fw ds]. cbn. intros Hget -> ->.
  unfold _onFocusTrackerFocus; unfold_actions; cbn. rewrite Hget. cbn.
  split; [reflexivity|]. split; [reflexivity|].
  apply bool_decide_eq_true.
  rewrite lookup_app_r, Nat.sub_diag by lia. reflexivity.
Qed.

(** C8.  [_onFocusTrackerBlur] never touches the override.  So after the
    widget gains focus on an unset override and then loses it, the
    override still holds [false]: a selection change with a new
    selection copies nothing, and the next focus throws. *)
Theorem blur_keeps_override :
  (forall (env : Env) (w : World),
      override (world_of (run env OpFocusTrackerBlur w)) = override w)
  /\ override readyWorld = None
  /\ override focusedWorld = Some false
  /\ override blurredWorld = Some false
  /\ currentSelection otherEnv <> snapshot blurredWorld
  /\ trace_of (run otherEnv OpSelectionChange blurredWorld) = []
  /\ error_of (run sampleEnv OpFocusTrackerFocus blurredWorld)
     = Some multipleOverrideError.
Proof.
  split.
  - intros env [[x o s p] f ds]. unfold override. run_action; reflexivity.
  - repeat split; try reflexivity. discriminate.
Qed.

(** C10, as worded, fails: while the override is held through a
    disposable that is not the widget's, a change of the find input
    leaves it held.  In the first world the widget holds no disposable
    and another caller has taken the override with [false]; in the
    second the widget still holds the disposable of an earlier focus,
    already disposed by an earlier change of the input, and another
    caller has taken the override since. *)
Lemma inputChanged_keeps_foreign_override :
  instance_xterm sampleEnv = true
  /\ override (world_of (run sampleEnv OpInputChanged
                           (after [(sampleEnv, OpOverrideCopyOnSelection false)]
                              readyWorld))) = Some false
  /\ override (world_of (run sampleEnv OpInputChanged
                           (after [(sampleEnv, OpFocusTrackerFocus);
                                   (sampleEnv, OpInputChanged);
                                   (sampleEnv, OpOverrideCopyOnSelection false)]
                              readyWorld))) = Some false.
Proof.
  split; [reflexivity|]. split; vm_compute; reflexivity.
Qed.

(** C10, amended.  With a terminal on the instance, a change of the find
    input disposes the disposable the widget holds, then issues the
    incremental search, and ends normally.  When that disposable has not
    been disposed before, the override is reset to unset ahead of the
    search; otherwise the override is left as it is. *)
Theorem inputChanged_disposes_own_override
    (env : Env) (w : World) (f : TerminalFindWidget) :
  instance_xterm env = true ->
  findWidget w = Some f ->
  error_of (_onInputChanged env w) = None
  /\ (holdsLiveDisposable w = true ->
        override (world_of (_onInputChanged env w)) = None
        /\ trace_of (_onInputChanged env w)
           = [EAssignOverride None;
              EFindPrevious (inputValue env) (searchOptions env (Some true));
              EUpdateButtons (foundMatch env)])
  /\ (holdsLiveDisposable w = false ->
        override (world_of (_onInputChanged env w)) = override w
        /\ trace_of (_onInputChanged env w)
           = [EFindPrevious (inputValue env) (searchOptions env (Some true));
              EUpdateButtons (foundMatch env)]).
Proof.
  intros Hx Hf. unfold holdsLiveDisposable, override.
  destruct w as [[x o s p] fw ds]. cbn in Hf. subst fw.
  unfold _onInputChanged; unfold_actions; cbn. rewrite Hx. cbn.
  destruct (_overrideCopyOnSelectionDisposable f) as [d|]; cbn.
  - destruct (ds !! d) as [[|]|] eqn:Hd; cbn;
      (split; [reflexivity|]); split; intros Hlive;
      try (apply bool_decide_eq_true in Hlive; discriminate);
      try (apply bool_decide_eq_false in Hlive; now destruct Hlive);
      split; reflexivity.
  - split; [reflexivity|]. split; [discriminate|]. intros _. split; reflexivity.
Qed.

Lemma inputChanged_disposes_own_override_witness :
  override focusedWorld = Some false
  /\ override (world_of (_onInputChanged sampleEnv focusedWorld)) = None.
Proof.
  split; [reflexivity|].
  destruct (inputChanged_disposes_own_override sampleEnv focusedWorld
              (mkFindWidget (Some 0) false true false true 0) eq_refl eq_refl)
    as (_ & H & _).
  apply H. reflexivity.
Defined.

(** ** Single ownership of the override *)

Lemma live_snoc (ds : list bool) (disposed : bool) :
  live (ds ++ [disposed]) = live ds + (if disposed then 0 else 1).
Proof. induction ds as [|b ds IH]; cbn; [|rewrite IH]; repeat case_match; lia. Qed.

Lemma live_dispose (ds : list bool) (d : IDisposable) :
  ds !! d = Some false -> live ds = S (live (<[d := true]> ds)).
Proof.
  revert d. induction ds as [|b ds IH]; intros [|d] Hd; cbn in Hd;
    try discriminate.
  - injection Hd as ->. reflexivity.
  - cbn. rewrite (IH d Hd). destruct b; reflexivity.
Qed.

Lemma live_lookup (ds : list bool) (d : IDisposable) :
  ds !! d = Some false -> 0 < live ds.
Proof. intros Hd. rewrite (live_dispose ds d Hd). lia. Qed.

Lemma run_singleOwner (env : Env) (op : Op) (w : World) :
  singleOwner w -> singleOwner (world_of (run env op w)).
Proof.
  unfold singleOwner, override.
  destruct w as [[x o s p] f ds], op; run_action; intros Hinv;
    rewrite ?live_snoc;
    try match goal with
      | Hd : ?l !! ?d = Some false |- _ => rewrite (live_dispose l d Hd) in Hinv
      end;
    try lia; try assumption.
Qed.

(** In every world the system reaches, the override is held exactly
    when one disposable is live. *)
Lemma reachable_singleOwner (w : World) : reachable w -> singleOwner w.
Proof.
  induction 1 as [|env op w _ IH]; [reflexivity|].
  now apply run_singleOwner.
Qed.

(** So a widget that holds a live disposable holds the override, and
    [_onInputChanged] releases the override exactly in that case. *)
Lemma reachable_live_disposable_held (w : World) :
  reachable w -> holdsLiveDisposable w = true -> is_Some (override w).
Proof.
  intros Hr Hlive. apply reachable_singleOwner in Hr.
  unfold singleOwner in Hr. unfold holdsLiveDisposable in Hlive.
  destruct (findWidget w ≫= _overrideCopyOnSelectionDisposable) as [d|];
    [|discriminate].
  apply bool_decide_eq_true in Hlive. apply live_lookup in Hlive.
  destruct (override w); [eauto | lia].
Qed.

(** * Further properties *)

(** ** Ownership of the override *)

Lemma after_reachable (calls : list (Env * Op)) (w : World) :
  reachable w -> reachable (after calls w).
Proof.
  revert w. induction calls as [|[env op] calls IH]; intros w Hw; [exact Hw|].
  cbn [after]. apply IH. now constructor.
Qed.

(** X1. In every world the system reaches from the initial one, the
    override is held exactly when one disposable is still live, and at
    most one is: a widget that holds a live disposable holds the
    override, and while the override is unset every disposable made so
    far has been disposed. *)
Theorem override_single_owner (w : World) :
  reachable w ->
  live (disposables w) <= 1
  /\ (is_Some (override w) <-> live (disposables w) = 1)
  /\ (holdsLiveDisposable w = true -> is_Some (override w)).
Proof.
  intros Hr. pose proof (reachable_singleOwner w Hr) as Hinv.
  unfold singleOwner in Hinv.
  split; [|split].
  - destruct (override w); lia.
  - destruct (override w); split; intros H; try lia; eauto.
    now destruct H.
  - now apply reachable_live_disposable_held.
Qed.

Lemma override_single_owner_witness :
  live (disposables focusedWorld) <= 1 /\ is_Some (override focusedWorld).
Proof.
  assert (Hr : reachable focusedWorld).
  { unfold focusedWorld, readyWorld. repeat apply after_reachable. constructor. }
  destruct (override_single_owner focusedWorld Hr) as (H1 & _ & H3).
  split; [exact H1 | apply H3; reflexivity].
Defined.

(** X2. A held override is given up by a dispose only: after any call
    it still holds the same value, unless the call is a change of the
    find input or a dispose, which may reset it to unset.  No call
    changes a held value into the other one. *)
Theorem held_override_released_by_dispose_only
    (env : Env) (op : Op) (w : World) (v : bool) :
  override w = Some v ->
  override (world_of (run env op w)) = Some v
  \/ (releases op = true /\ override (world_of (run env op w)) = None).
Proof.
  unfold override.
  destruct w as [[x o s p] f ds], op; cbn [releases]; run_action; intros Hheld;
    simplify_eq; auto.
Qed.

Lemma held_override_released_by_dispose_only_witness :
  override (world_of (run sampleEnv OpHide focusedWorld)) = Some false
  /\ override (world_of (run sampleEnv OpPaste focusedWorld)) = Some false.
Proof.
  split.
  - destruct (held_override_released_by_dispose_only sampleEnv OpHide
                focusedWorld false eq_refl) as [H | [H _]];
      [exact H | discriminate H].
  - destruct (held_override_released_by_dispose_only sampleEnv OpPaste
                focusedWorld false eq_refl) as [H | [H _]];
      [exact H | discriminate H].
Defined.

(** X3. The two classes take the override with [false] only: a call
    leaves the override at [true] only if it held [true] before or the
    call is [overrideCopyOnSelection(true)] made by another caller. *)
Theorem override_true_from_outside_only (env : Env) (op : Op) (w : World) :
  override (world_of (run env op w)) = Some true ->
  override w = Some true \/ op = OpOverrideCopyOnSelection true.
Proof.
  unfold override.
  destruct w as [[x o s p] f ds], op; run_action; intros Htrue;
    simplify_eq; auto.
Qed.

Lemma override_true_from_outside_only_witness :
  override initialWorld = Some true
  \/ OpOverrideCopyOnSelection true = OpOverrideCopyOnSelection true.
Proof.
  apply (override_true_from_outside_only sampleEnv
           (OpOverrideCopyOnSelection true) initialWorld eq_refl).
Defined.

(** ** When a selection change copies *)

(** What the listener on selection changes does, in one equation. *)
Lemma onDidChangeSelection_listener_eq (env : Env) (w : World) :
  onDidChangeSelection_listener env w
  = if copyOnSelection env
       && negb (bool_decide (override w = Some false))
       && negb (bool_decide (currentSelection env = snapshot w))
       && hasSelection env
    then Normal tt
           (mkWorld
              (set_previousSelectionPosition (getSelectionPosition env)
                 (set_previousSelection (Some (getSelection env)) (clipboard w)))
              (findWidget w) (disposables w))
           ([EAssignPreviousSelection (getSelection env);
             EAssignPreviousSelectionPosition (getSelectionPosition env)]
            ++ if _xterm (clipboard w) then [EXtermCopySelection None None] else [])
    else Normal tt w [].
Proof.
  unfold onDidChangeSelection_listener, copySelection, when, bind, this, update,
    emit, ret, override.
  destruct (copyOnSelection env); [|reflexivity]. cbn.
  destruct (bool_decide (_overrideCopySelection (clipboard w) = Some false));
    [reflexivity|].
  rewrite same_selection_test.
  destruct (bool_decide (currentSelection env = snapshot w)); [reflexivity|].
  destruct (hasSelection env); [|reflexivity].
  cbn. destruct (_xterm (clipboard w)); reflexivity.
Qed.

(** The whole event: the listener of the contribution, then the one-shot
    listeners of the find widget. *)
Lemma fire_onDidChangeSelection_eq (env : Env) (w : World) :
  run env OpSelectionChange w
  = match (if _xterm (clipboard w)
           then onDidChangeSelection_listener env w
           else Normal tt w []) with
    | Normal _ w1 tr =>
        Normal tt
          (mkWorld (clipboard w1)
             (set_onceSelectionListeners 0 <$> findWidget w1)
             (disposables w1))
          (tr ++ repeat EClearActiveSearchDecoration (pendingOnce w1))
    | Thrown e w1 tr => Thrown e w1 tr
    end.
Proof.
  unfold run, fire_onDidChangeSelection, bind, this, when, ret,
    pendingOnceListeners, updateWidget, pendingOnce.
  destruct (_xterm (clipboard w));
    [destruct (onDidChangeSelection_listener env w)|];
    rewrite ?emits_eq; cbn; rewrite ?app_nil_r; reflexivity.
Qed.

(** X4. A selection-changed event copies exactly when the terminal is
    set, copy on selection is on, the override does not hold [false], the
    selection differs from the snapshot in text or position, and there
    is a selection; it then copies once and records the selection, and
    otherwise copies nothing and keeps the snapshot.  An override that
    holds [true] counts as unset: it forces no copy.  The event never
    throws and never changes the override. *)
Theorem selection_change_copies_iff (env : Env) (w : World) :
  filter isCopy (trace_of (run env OpSelectionChange w))
  = (if copiesOnSelection env w then [EXtermCopySelection None None] else [])
  /\ snapshot (world_of (run env OpSelectionChange w))
     = (if copiesOnSelection env w then currentSelection env else snapshot w)
  /\ override (world_of (run env OpSelectionChange w)) = override w
  /\ error_of (run env OpSelectionChange w) = None.
Proof.
  rewrite fire_onDidChangeSelection_eq, onDidChangeSelection_listener_eq. unfold copiesOnSelection.
  destruct (_xterm (clipboard w)); cbn [andb];
    [destruct (copyOnSelection env
               && negb (bool_decide (override w = Some false))
               && negb (bool_decide (currentSelection env = snapshot w))
               && hasSelection env)|];
    cbn [trace_of world_of error_of clipboard];
    rewrite ?filter_app, ?no_copy_in_clears; auto.
Qed.

(** ** Paste and the find widget *)

(** The world after a [paste] whose listener takes the override: the
    override holds [false], and the widget keeps the new disposable. *)
Lemma paste_takes_override_eq (env : Env) (w : World) :
  pasteTakesOverride env w = true ->
  error_of (paste env w) = None /\
  world_of (paste env w)
  = mkWorld (set_overrideCopySelection (Some false) (clipboard w))
      (set_disposable (Some (length (disposables w))) <$> findWidget w)
      (disposables w ++ [false]).
Proof.
  unfold pasteTakesOverride, subscribed, override.
  destruct w as [[x o s p] [f|] ds]; cbn; rewrite ?andb_false_r;
    try discriminate.
  intros H. repeat (apply andb_true_iff in H as [H ?]).
  subst x. apply bool_decide_eq_true in H0. subst o.
  unfold paste, _paste; unfold_actions; cbn.
  rewrite H3. cbn. rewrite H2, H1. cbn. auto.
Qed.

(** X5. When [paste] goes through (terminal set, guard not rejecting)
    while the find widget listens to [onWillPaste], reaches the
    contribution, and the override is unset, the widget's listener takes
    the override with [false] and keeps it after the paste: every
    selection change copies nothing, and the next [paste] cannot take the
    override again, until a change of the find input releases it. *)
Theorem paste_leaves_override_to_widget (env : Env) (w : World) :
  pasteTakesOverride env w = true ->
  error_of (paste env w) = None
  /\ override (world_of (paste env w)) = Some false
  /\ holdsLiveDisposable (world_of (paste env w)) = true
  /\ (forall env' : Env,
        filter isCopy (trace_of (run env' OpSelectionChange (world_of (paste env w))))
        = [])
  /\ (forall env' : Env,
        pasteTakesOverride env' (world_of (paste env w)) = false)
  /\ (forall env' : Env,
        instance_xterm env' = true ->
        override (world_of (run env' OpInputChanged (world_of (paste env w)))) = None).
Proof.
  intros Htakes.
  destruct (paste_takes_override_eq env w Htakes) as [Hok Hw].
  assert (Hsub : is_Some (findWidget w)).
  { unfold pasteTakesOverride, subscribed in Htakes.
    destruct (findWidget w); [eauto|].
    cbn in Htakes. rewrite !andb_false_r in Htakes. discriminate. }
  destruct Hsub as [f Hf].
  rewrite Hw, Hf. cbn [fmap option_fmap option_map].
  split; [exact Hok|]. split; [reflexivity|].
  assert (Hlook : (disposables w ++ [false]) !! length (disposables w) = Some false).
  { rewrite lookup_app_r, Nat.sub_diag by lia. reflexivity. }
  split; [|split; [|split]].
  - unfold holdsLiveDisposable. cbn. now apply bool_decide_eq_true.
  - intros env'. rewrite fire_onDidChangeSelection_eq,
      onDidChangeSelection_listener_eq.
    unfold override. cbn [clipboard _overrideCopySelection set_overrideCopySelection].
    rewrite (bool_decide_eq_true_2 (Some false = Some false)) by reflexivity.
    cbn [negb andb]. rewrite !andb_false_r.
    destruct (_xterm _); cbn; apply no_copy_in_clears.
  - intros env'. unfold pasteTakesOverride, override. cbn.
    apply andb_false_r.
  - intros env' Hx. unfold override.
    unfold run, onWidget, ignore, _onInputChanged; unfold_actions; cbn.
    rewrite Hx. cbn. rewrite Hlook. reflexivity.
Qed.

Lemma paste_leaves_override_to_widget_witness :
  override readyWorld = None
  /\ override (world_of (paste sampleEnv readyWorld)) = Some false
  /\ override (world_of (run sampleEnv OpInputChanged
                           (world_of (paste sampleEnv readyWorld)))) = None.
Proof.
  split; [reflexivity|].
  destruct (paste_leaves_override_to_widget sampleEnv readyWorld eq_refl)
    as (_ & H1 & _ & _ & _ & H2).
  split; [exact H1 | apply H2; reflexivity].
Defined.

(** X6. In every other case [paste], called on an instance that has the
    contribution, leaves the world as it was, whether it pastes or not:
    it assigns nothing to the override, and the snapshot, the find
    widget and the disposables are untouched. *)
Theorem paste_otherwise_keeps_world (env : Env) (w : World) :
  getContribution env = true ->
  pasteTakesOverride env w = false ->
  world_of (paste env w) = w
  /\ filter isAssignOverride (trace_of (paste env w)) = [].
Proof.
  unfold pasteTakesOverride, subscribed, override. intros Hget.
  destruct w as [[x o s p] f ds]; cbn.
  unfold paste, _paste; unfold_actions; cbn. rewrite Hget.
  destruct x; cbn; [|intros _; split; reflexivity].
  destruct (truthy _); cbn; [|intros _; split; reflexivity].
  destruct f as [f|]; cbn; [|intros _; split; reflexivity].
  destruct (willPasteSubscribed f); cbn; [|intros _; split; reflexivity].
  destruct o as [held|]; cbn; [|discriminate].
  intros _. destruct (listenerErrorPropagates env); cbn; split; reflexivity.
Qed.

Lemma paste_otherwise_keeps_world_witness :
  world_of (paste sampleEnv focusedWorld) = focusedWorld.
Proof.
  apply (paste_otherwise_keeps_world sampleEnv focusedWorld eq_refl eq_refl).
Defined.

(** X7. [pasteSelection] called on an unset override takes the override
    even when it pastes nothing, because no terminal is set or the guard
    rejects the text: nothing is focused, fired or written, yet the
    override is left at [false], and the next [pasteSelection] throws. *)
Theorem pasteSelection_rejected_keeps_override (env : Env) (w : World) :
  override w = None ->
  _xterm (clipboard w)
  && truthy (shouldPasteTerminalText env (readText env SelectionClipboard)
               (bracketedPasteMode env)) = false ->
  error_of (pasteSelection env w) = None
  /\ filter pasteVisible (trace_of (pasteSelection env w)) = []
  /\ override (world_of (pasteSelection env w)) = Some false
  /\ (forall env' : Env,
        error_of (pasteSelection env' (world_of (pasteSelection env w)))
        = Some multipleOverrideError).
Proof.
  unfold override. destruct w as [[x o s p] f ds]. cbn. intros -> Hnot.
  unfold pasteSelection, _paste; unfold_actions; cbn.
  destruct x; cbn in *; [rewrite Hnot|]; cbn; auto.
Qed.

Lemma pasteSelection_rejected_keeps_override_witness :
  filter pasteVisible (trace_of (pasteSelection rejectingEnv readyWorld)) = []
  /\ override (world_of (pasteSelection rejectingEnv readyWorld)) = Some false.
Proof.
  destruct (pasteSelection_rejected_keeps_override rejectingEnv readyWorld
              eq_refl eq_refl) as (_ & H1 & H2 & _).
  split; [exact H1 | exact H2].
Defined.

(** ** Mouse events *)

(** X8. [handleMouseEvent] never throws, and never both copies the
    selection and reads the clipboard.  It answers [{ handled: true }]
    exactly for a middle click with the 'paste' behaviour and for a right
    click without shift with the 'copyPaste' or 'paste' behaviour; every
    other event (another button, shift held, another behaviour) has no
    effect at all. *)
Theorem handleMouseEvent_safe (env : Env) (event : MouseEvent) (w : World) :
  error_of (handleMouseEvent env event w) = None
  /\ (filter isCopy (trace_of (handleMouseEvent env event w)) = []
      \/ filter isReadText (trace_of (handleMouseEvent env event w)) = [])
  /\ (handlesMouse env event = false ->
        handleMouseEvent env event w = Normal None w [])
  /\ (handlesMouse env event = true ->
        exists (w' : World) (tr : list Effect),
          handleMouseEvent env event w = Normal (Some true) w' tr).
Proof.
  unfold handlesMouse, handleMouseEvent. destruct event as [b sh].
  cbn [button shiftKey]. destruct w as [[x o s p] f ds].
  destruct (b =? 1)%N eqn:H1.
  { assert (H2 : (b =? 2)%N = false).
    { apply N.eqb_eq in H1. subst b. reflexivity. }
    rewrite H2. cbn [andb orb].
    destruct (String.eqb (middleClickBehavior env) "paste");
      run_action; repeat split; intros; simplify_eq; eauto. }
  destruct (b =? 2)%N; cbn [andb orb];
    [|cbn; repeat split; intros; simplify_eq; eauto].
  destruct sh; cbn [negb andb orb];
    [cbn; repeat split; intros; simplify_eq; eauto|].
  destruct (String.eqb (rightClickBehavior env) "copyPaste");
    destruct (String.eqb (rightClickBehavior env) "paste");
    cbn [negb andb orb];
    run_action; repeat split; intros; simplify_eq; eauto.
Qed.

(** X9. A right click without shift, with the 'copyPaste' behaviour
    and a selection, copies the selection and then clears it, whatever
    the override holds, and reads no clipboard.  With 'copyPaste' and no
    selection, or with 'paste', a browser that cannot read the clipboard
    gets a notification only.  On a Macintosh the deferred clearing of
    the selection is scheduled last. *)
Theorem right_click_copies_or_pastes (env : Env) (event : MouseEvent) (w : World) :
  button event = 2%N ->
  shiftKey event = false ->
  (String.eqb (rightClickBehavior env) "copyPaste" = true ->
   hasSelection env = true ->
   _xterm (clipboard w) = true ->
     handleMouseEvent env event w
     = Normal (Some true) w
         ([EXtermCopySelection None None; EClearSelection]
          ++ if isMacintosh env then [EClearSelectionLater] else []))
  /\ (String.eqb (rightClickBehavior env) "copyPaste" && hasSelection env = false ->
      String.eqb (rightClickBehavior env) "copyPaste"
      || String.eqb (rightClickBehavior env) "paste" = true ->
      clipboardReadText env = false ->
        handleMouseEvent env event w
        = Normal (Some true) w
            ([ENotificationInfo]
             ++ if isMacintosh env then [EClearSelectionLater] else [])).
Proof.
  destruct event as [b sh]. cbn [button shiftKey]. intros -> ->.
  destruct w as [[x o s p] f ds]. unfold handleMouseEvent. cbn [button shiftKey].
  change (2 =? 1)%N with false. change (2 =? 2)%N with true. cbn iota.
  split.
  - intros Hcp Hsel Hx. cbn in Hx. subst x. rewrite Hcp, Hsel. cbn [negb andb].
    unfold_actions. cbn. destruct (isMacintosh env); reflexivity.
  - intros Hno Hany Hread. rewrite Hno.
    apply orb_true_iff in Hany.
    assert (Hgo : negb (String.eqb (rightClickBehavior env) "copyPaste")
                  && negb (String.eqb (rightClickBehavior env) "paste") = false).
    { destruct Hany as [-> | ->]; cbn; rewrite ?andb_false_r; reflexivity. }
    rewrite Hgo, Hread. unfold_actions. cbn.
    destruct (isMacintosh env); reflexivity.
Qed.

Lemma right_click_copies_or_pastes_witness :
  handleMouseEvent (mouseEnv "default" "copyPaste" true true true) rightClick
    focusedWorld
  = Normal (Some true) focusedWorld
      [EXtermCopySelection None None; EClearSelection; EClearSelectionLater]
  /\ handleMouseEvent (mouseEnv "default" "paste" true false false) rightClick
       focusedWorld
     = Normal (Some true) focusedWorld [ENotificationInfo].
Proof.
  split.
  - apply (right_click_copies_or_pastes
             (mouseEnv "default" "copyPaste" true true true) rightClick
             focusedWorld eq_refl eq_refl); reflexivity.
  - apply (right_click_copies_or_pastes
             (mouseEnv "default" "paste" true false false) rightClick
             focusedWorld eq_refl eq_refl); reflexivity.
Defined.

(** ** Searching from the find widget *)

(** X12. With an empty find input and nothing selected, [find] still
    hands the empty query to the search addon, in either direction, and
    a forward search never carries the [incremental] option; [reveal]
    issues no search at all, reports no match to the buttons, and leaves
    no one-shot listener. *)
Theorem empty_query_is_searched_by_find_only
    (env : Env) (w : World) (update : option bool) :
  instance_xterm env = true ->
  inputValue env = EmptyString ->
  hasSelection env = false ->
  trace_of (find env true update w)
  = [EFindPrevious EmptyString (searchOptions env update)]
  /\ trace_of (find env false update w)
     = [EFindNext EmptyString (searchOptions env None)]
  /\ trace_of (reveal env w) = [EUpdateButtons false; ESuperReveal EmptyString]
  /\ pendingOnce (world_of (reveal env w)) = pendingOnce w.
Proof.
  intros Hx Hin Hsel. unfold pendingOnce.
  unfold find, reveal, initialInput, instance_selection; unfold_actions.
  rewrite Hx, Hin, Hsel. cbn.
  destruct (findWidget w); repeat split; reflexivity.
Qed.

Lemma empty_query_is_searched_by_find_only_witness :
  trace_of (find emptyQueryEnv true (Some true) readyWorld)
  = [EFindPrevious EmptyString (mkSearchOptions false false false (Some true))]
  /\ trace_of (reveal emptyQueryEnv readyWorld)
     = [EUpdateButtons false; ESuperReveal EmptyString].
Proof.
  destruct (empty_query_is_searched_by_find_only emptyQueryEnv readyWorld
              (Some true) eq_refl eq_refl eq_refl) as (H1 & _ & H2 & _).
  split; [exact H1 | exact H2].
Defined.

Lemma includes_newline_app (a b : string) :
  includes_newline (a +:+ newline +:+ b) = true.
Proof.
  induction a as [|c a IH]; [reflexivity|].
  rewrite append_cons_l. cbn [includes_newline]. rewrite IH.
  apply orb_true_r.
Qed.

(** X13. [show] and [reveal] seed the find input with the selection only
    when there is one and it has no line break: a selection with a line
    break anywhere seeds nothing, and [reveal] then falls back on the
    text of the find input.  With a single-line selection that is not
    empty and a terminal on the instance, [reveal] searches backwards,
    incrementally, for the selection and not for the text of the find
    input, and leaves two one-shot listeners. *)
Theorem find_input_seeded_by_single_line_selection
    (env : Env) (w : World) (f : TerminalFindWidget) :
  findWidget w = Some f ->
  hasSelection env = true ->
  (forall a b : string,
      getSelection env = a +:+ newline +:+ b ->
      trace_of (show env w) = [ESuperShow None]
      /\ In (ESuperReveal (inputValue env)) (trace_of (reveal env w)))
  /\ (includes_newline (getSelection env) = false ->
        trace_of (show env w) = [ESuperShow (Some (getSelection env))]
        /\ (instance_xterm env = true ->
            getSelection env <> EmptyString ->
              trace_of (reveal env w)
              = [EFindPrevious (getSelection env) (searchOptions env (Some true));
                 EUpdateButtons false;
                 ESuperReveal (getSelection env);
                 EUpdateButtons (foundMatch env)]
              /\ pendingOnce (world_of (reveal env w)) = S (S (pendingOnce w)))).
Proof.
  intros Hf Hsel. unfold pendingOnce.
  destruct w as [[x o s p] fw ds]. cbn in Hf. subst fw.
  unfold show, reveal, initialInput, instance_selection; unfold_actions.
  rewrite Hsel. cbn [andb].
  split.
  - intros a b Hab. rewrite Hab, includes_newline_app. cbn.
    split; [reflexivity|].
    destruct (instance_xterm env && _); cbn; auto.
  - intros Hline. rewrite Hline. cbn. split; [reflexivity|].
    intros Hx Hne. rewrite Hx. cbn.
    destruct (String.eqb_spec (getSelection env) EmptyString) as [Heq|_];
      [now destruct Hne|].
    cbn. split; reflexivity.
Qed.

Lemma find_input_seeded_by_single_line_selection_witness :
  trace_of (show twoLinesEnv readyWorld) = [ESuperShow None]
  /\ trace_of (show sampleEnv readyWorld) = [ESuperShow (Some "hello")].
Proof.
  split.
  - destruct (find_input_seeded_by_single_line_selection twoLinesEnv readyWorld
                (mkFindWidget None false false false true 0) eq_refl eq_refl)
      as (H & _).
    destruct (H "first" "second" eq_refl) as (H1 & _). exact H1.
  - destruct (find_input_seeded_by_single_line_selection sampleEnv readyWorld
                (mkFindWidget None false false false true 0) eq_refl eq_refl)
      as (_ & H).
    destruct (H eq_refl) as (H1 & _). exact H1.
Defined.

(** ** Focus of the find widget *)

(** X14. When the find widget gains focus while the override is held,
    by the widget itself or by anyone else, [_onFocusTrackerFocus] throws
    before it sets the [findFocus] context key: the world is left as it
    was, so the key keeps the value it had.  On an instance without the
    contribution the override is not asked for and the key is set. *)
Theorem focus_on_held_override_sets_no_key
    (env : Env) (w : World) (f : TerminalFindWidget) :
  findWidget w = Some f ->
  is_Some (override w) ->
  (getContribution env = true ->
     run env OpFocusTrackerFocus w = Thrown multipleOverrideError w [])
  /\ (getContribution env = false ->
        run env OpFocusTrackerFocus w
        = Normal tt
            (mkWorld (clipboard w) (Some (set_findWidgetFocused true f))
               (disposables w)) []).
Proof.
  unfold override. destruct w as [[x o s p] fw ds]. cbn.
  intros -> [v ->].
  split; intros Hget; unfold run, onWidget, _onFocusTrackerFocus;
    unfold_actions; cbn; rewrite Hget; reflexivity.
Qed.

Lemma focus_on_held_override_sets_no_key_witness :
  (findWidget blurredWorld ≫= fun f => Some (_findWidgetFocused f)) = Some false
  /\ run sampleEnv OpFocusTrackerFocus blurredWorld
     = Thrown multipleOverrideError blurredWorld [].
Proof.
  split; [reflexivity|].
  destruct (focus_on_held_override_sets_no_key sampleEnv blurredWorld
              (mkFindWidget (Some 0) false false false true 0) eq_refl
              (ex_intro _ false eq_refl)) as (H & _).
  apply H. reflexivity.
Defined.

(** ** Copying the last command *)

Lemma lastCommand_snoc (commands : list ITerminalCommand) (c : ITerminalCommand) :
  lastCommand (Some (commands ++ [c])) = Some c.
Proof.
  unfold lastCommand. rewrite length_app. cbn [length].
  replace (length commands + 1 =? 0)%nat with false
    by (symmetry; apply Nat.eqb_neq; lia).
  rewrite lookup_app_r by lia.
  replace (length commands + 1 - 1 - length commands) with 0 by lia.
  reflexivity.
Qed.

Lemma lastCommand_Some (commands : option (list ITerminalCommand))
    (c : ITerminalCommand) :
  lastCommand commands = Some c <->
  exists earlier : list ITerminalCommand, commands = Some (earlier ++ [c]).
Proof.
  split.
  - destruct commands as [cs|]; [|discriminate].
    induction cs as [|c' earlier _] using rev_ind.
    + discriminate.
    + rewrite lastCommand_snoc. intros [= ->]. eauto.
  - intros (earlier & ->). apply lastCommand_snoc.
Qed.

(** X15. [CopyLastCommand] writes the text of the last command of the
    list, whatever the earlier commands are, and writes nothing when the
    instance has no command detection, the list is empty, or the text of
    the last command is empty. *)
Theorem copyLastCommand_writes_last
    (commands : option (list ITerminalCommand)) (text : string) :
  copyLastCommand commands = Some text <->
  exists (earlier : list ITerminalCommand) (c : ITerminalCommand),
    commands = Some (earlier ++ [c])
    /\ cmd_command c = text
    /\ text <> EmptyString.
Proof.
  unfold copyLastCommand. split.
  - destruct (lastCommand commands) as [c|] eqn:Hlast; [|discriminate].
    apply lastCommand_Some in Hlast as (earlier & ->).
    destruct (String.eqb_spec (cmd_command c) EmptyString) as [Heq|Hne];
      [discriminate|].
    intros [= <-]. eauto.
  - intros (earlier & c & -> & <- & Hne).
    rewrite lastCommand_snoc.
    destruct (String.eqb_spec (cmd_command c) EmptyString) as [Heq|_];
      [now destruct Hne | reflexivity].
Qed.

(** X16. [CopyLastCommandAndLastCommandOutput] writes exactly when
    [CopyLastCommandOutput] does, that is when the last command says it
    has output and gives it as a string.  What it writes is that output,
    after the text of the command and a line break when that text is not
    empty, and the output alone when it is. *)
Theorem copyLastCommandAndOutput_extends_output
    (commands : option (list ITerminalCommand)) :
  match lastCommand commands with
  | Some c =>
      copyLastCommandOutput commands
      = (if cmd_hasOutput c then cmd_getOutput c else None)
      /\ copyLastCommandAndOutput commands
         = (fun output =>
              if String.eqb (cmd_command c) EmptyString then output
              else cmd_command c +:+ newline +:+ output)
           <$> copyLastCommandOutput commands
  | None =>
      copyLastCommandOutput commands = None
      /\ copyLastCommandAndOutput commands = None
  end.
Proof.
  unfold copyLastCommandOutput, copyLastCommandAndOutput.
  destruct (lastCommand commands) as [c|]; [|auto].
  destruct (cmd_hasOutput c); cbn [negb]; [|auto].
  split; [reflexivity|].
  destruct (cmd_getOutput c) as [output|]; [|reflexivity].
  cbn. destruct (String.eqb (cmd_command c) EmptyString); cbn [negb].
  - reflexivity.
  - now rewrite append_assoc_string.
Qed.

(** ** An override nobody can release *)

Lemma run_keeps_orphan_override (env : Env) (op : Op) (w : World) (v : bool) :
  override w = Some v ->
  holdsLiveDisposable w = false ->
  isDispose op = false ->
  override (world_of (run env op w)) = Some v
  /\ holdsLiveDisposable (world_of (run env op w)) = false.
Proof.
  unfold override, holdsLiveDisposable.
  destruct w as [[x o s p] [[d fi ff fv sub k]|] ds], op; cbn [isDispose];
    try discriminate;
    run_action; intros; simplify_eq; cbn in *; auto;
    repeat match goal with
      | H : bool_decide _ = false |- _ => apply bool_decide_eq_false in H
      | H : ?l !! ?d = Some false, H' : ?l !! ?d <> Some false |- _ =>
          now destruct H'
      end;
    try (split; [reflexivity|]; apply bool_decide_eq_false; congruence).
Qed.

(** X17. While the override is held through a disposable the find
    widget does not hold live (one that was dropped, as [pasteSelection]
    drops its own, or that another caller keeps), no series of calls of
    the two classes releases it or changes its value: only a dispose by
    that holder does.  Until then the widget's changes of input release
    nothing, and focus, paste and selection paste cannot take it. *)
Theorem orphan_override_stays_held
    (calls : list (Env * Op)) (w : World) (v : bool) :
  override w = Some v ->
  holdsLiveDisposable w = false ->
  forallb (fun call => negb (isDispose (snd call))) calls = true ->
  override (after calls w) = Some v
  /\ holdsLiveDisposable (after calls w) = false.
Proof.
  revert w. induction calls as [|[env op] calls IH]; intros w Hheld Horphan Hcalls.
  - auto.
  - cbn in Hcalls. apply andb_true_iff in Hcalls as [Hop Hcalls].
    apply negb_true_iff in Hop.
    destruct (run_keeps_orphan_override env op w v Hheld Horphan Hop) as [H1 H2].
    cbn [after]. now apply IH.
Qed.

Lemma orphan_override_stays_held_witness :
  override (world_of (pasteSelection sampleEnv readyWorld)) = Some false
  /\ override (after ordinaryCalls (world_of (pasteSelection sampleEnv readyWorld)))
     = Some false.
Proof.
  split; [reflexivity|].
  destruct (orphan_override_stays_held ordinaryCalls
              (world_of (pasteSelection sampleEnv readyWorld)) false
              eq_refl eq_refl eq_refl) as [H _].
  exact H.
Defined.

(** ** Before the terminal is set *)

Lemma no_touch_in_clears (n : nat) :
  filter touchesTerminal (repeat EClearActiveSearchDecoration n) = [].
Proof. induction n; auto. Qed.

(** X18. Until [xtermReady] has set the terminal, no call copies from a
    terminal or pastes into one: nothing is copied, no paste event fires
    and nothing is written, the snapshot stays as it is, and only
    [xtermReady] sets the terminal. *)
Theorem nothing_reaches_terminal_before_ready (env : Env) (op : Op) (w : World) :
  _xterm (clipboard w) = false ->
  op <> OpXtermReady ->
  filter touchesTerminal (trace_of (run env op w)) = []
  /\ snapshot (world_of (run env op w)) = snapshot w
  /\ _xterm (clipboard (world_of (run env op w))) = false.
Proof.
  unfold snapshot.
  destruct w as [[x o s p] f ds]. cbn [clipboard _xterm]. intros -> Hop.
  destruct op; try (now destruct Hop); clear Hop;
    try (run_action; repeat split; reflexivity).
  rewrite fire_onDidChangeSelection_eq. cbn.
  split; [apply no_touch_in_clears | split; reflexivity].
Qed.

Lemma nothing_reaches_terminal_before_ready_witness :
  filter touchesTerminal (trace_of (run sampleEnv OpPaste initialWorld)) = []
  /\ filter touchesTerminal
       (trace_of (run sampleEnv OpSelectionChange initialWorld)) = [].
Proof.
  split.
  - apply (nothing_reaches_terminal_before_ready sampleEnv OpPaste initialWorld
             eq_refl); discriminate.
  - apply (nothing_reaches_terminal_before_ready sampleEnv OpSelectionChange
             initialWorld eq_refl); discriminate.
Defined.
